(** * OpenDataMCP providers: tool handlers, argument validation, registration

    A shallow embedding of [src/odmcp/providers/ch_sbb.py] and
    [src/odmcp/providers/glob_screeners.py].

    Both modules follow one pattern per endpoint: a pydantic model for the
    arguments, a pydantic model for the response, a [fetch_*] function that
    performs one upstream request, an async [handle_*] function wrapping the
    fetch in [try ... except Exception], and two module-level statements that
    register the tool ([TOOLS.append], [TOOLS_HANDLERS[name] = handler]).

    Modelling choices.
    - Python objects decoded from JSON are the inductive [value].
    - A [dict] is an association list read with [dict_get]; a validated
      model keeps its fields in declaration order, which is the order
      [model_dump] emits them in.
    - Exceptions are the inductive [PyExn]; code that can raise lives in the
      monad [M], which threads the [World] (upstream oracles, the trace of
      requests issued, the log, the global [screener] object).
    - pydantic, httpx and yfinance are libraries, not part of the sources.
      Their documented behaviour is written out where the sources rely on
      it; the conversions whose details the sources never touch (numeric
      strings and floats given to an [int] field, validation and [repr] of
      the per-dataset result items) are the fields of the class
      [Externals], and every statement holds for all instances of it. *)

From Stdlib Require Import ZArith String Ascii List Bool Lia PrimFloat.
From stdpp Require Import base tactics option list gmap strings pretty.
Import ListNotations.
Set Warnings "-register-all".
Local Open Scope string_scope.
Local Open Scope list_scope.
Local Open Scope Z_scope.

(** ** Python values *)

Inductive value : Type :=
| VNone
| VBool (b : bool)
| VInt (n : Z)
| VFloat (x : float)
| VStr (s : string)
| VList (l : list value)
| VDict (d : list (string * value)).

(** A [dict[str, Any]]: keyword arguments, a JSON object, a dumped model. *)
Abbreviation Bag := (list (string * value)).

Fixpoint dict_get (k : string) (d : Bag) : option value :=
  match d with
  | [] => None
  | (k', v) :: d' => if String.eqb k k' then Some v else dict_get k d'
  end.

(** [d[k] = v]: overwrite in place when the key exists, append otherwise. *)
Fixpoint dict_set (k : string) (v : value) (d : Bag) : Bag :=
  match d with
  | [] => [(k, v)]
  | (k', v') :: d' =>
      if String.eqb k k' then (k, v) :: d' else (k', v') :: dict_set k v d'
  end.

Definition keys (d : Bag) : list string := map fst d.

Definition is_none (v : value) : bool :=
  match v with VNone => true | _ => false end.

(** ** pydantic: error details *)

Inductive LocItem : Type :=
| LField (name : string)
| LIndex (i : nat).

(** The [type] of one entry of [ValidationError.errors()]. *)
Inductive ErrorType : Type :=
| missing
| int_type
| int_parsing
| int_from_float
| greater_than_equal (ge : Z)
| less_than_equal (le : Z)
| string_type
| bool_type
| bool_parsing
| list_type
| item_error (detail : string).

Record ErrorDetails : Type := mkError {
  loc : list LocItem;
  type_ : ErrorType
}.

Definition at_field (name : string) (t : ErrorType) : ErrorDetails :=
  {| loc := [LField name]; type_ := t |}.

(** ** Exceptions *)

Inductive PyExn : Type :=
| TypeError (msg : string)
| ValueError (msg : string)
| AttributeError (attr : string)
| ValidationError (title : string) (errors : list ErrorDetails)
| HTTPStatusError (status_code : Z)
| RequestError (msg : string)
| JSONDecodeError
| OtherError (cls : string) (msg : string).

(** [type(e).__name__] *)
Definition exn_class (e : PyExn) : string :=
  match e with
  | TypeError _ => "TypeError"
  | ValueError _ => "ValueError"
  | AttributeError _ => "AttributeError"
  | ValidationError _ _ => "ValidationError"
  | HTTPStatusError _ => "HTTPStatusError"
  | RequestError _ => "RequestError"
  | JSONDecodeError => "JSONDecodeError"
  | OtherError cls _ => cls
  end.

(** ** Library behaviour left open *)

Inductive ResultModel : Type :=
| TrafficInfoResult
| RailwayLineResult
| RollingStockResult
| StationUsersResult
| TargetActualComparedResult
| StationFurnitureResult
| StationServiceResult
| StoresResult
| FincanceScreenerResult.

Class Externals : Type := {
  (** pydantic-core's parser of numeric strings given to an [int] field *)
  str_as_int : string -> option Z;
  (** pydantic-core's conversion of a float given to an [int] field *)
  float_as_int : float -> option Z;
  (** a validated instance of one of the [*Result] models *)
  Item : Type;
  (** validation of one element of [results] / [quotes] *)
  item_validate : ResultModel -> value -> list ErrorDetails + Item;
  (** [repr] of such an instance *)
  item_repr : ResultModel -> Item -> string
}.

(** ** pydantic: field validators (lax mode, Python input) *)

Inductive FieldType : Type :=
| TInt (ge le : option Z)
| TStr
| TBool
| TOptional (t : FieldType).

Definition ascii_lower (c : ascii) : ascii :=
  let n := nat_of_ascii c in
  if (Nat.leb 65 n && Nat.leb n 90)%bool then ascii_of_nat (n + 32) else c.

Fixpoint str_lower (s : string) : string :=
  match s with
  | EmptyString => EmptyString
  | String c s' => String (ascii_lower c) (str_lower s')
  end.

Definition str_in (s : string) (l : list string) : bool :=
  existsb (String.eqb s) l.

Definition str_as_bool (s : string) : ErrorType + bool :=
  let s' := str_lower s in
  if str_in s' ["0"; "off"; "f"; "n"; "no"; "false"] then inr false
  else if str_in s' ["1"; "on"; "t"; "y"; "yes"; "true"] then inr true
  else inl bool_parsing.

Definition int_as_bool (n : Z) : ErrorType + bool :=
  if n =? 0 then inr false else if n =? 1 then inr true else inl bool_parsing.

(** ** pydantic: argument models

    [default = None] is a required field ([Field(...)]); pydantic does not
    validate defaults, they are stored as declared. *)

Record FieldInfo : Type := {
  fname : string;
  annotation : FieldType;
  default : option value
}.

Record ParamsModel : Type := {
  title : string;
  fields : list FieldInfo
}.

(** [name: Optional[str] = Field(None, ...)] *)
Definition opt_str (name : string) : FieldInfo :=
  {| fname := name; annotation := TOptional TStr; default := Some VNone |}.

(** [name: int = Field(default=d, ge=.., le=.., ...)] *)
Definition int_field (name : string) (d : Z) (ge le : option Z) : FieldInfo :=
  {| fname := name; annotation := TInt ge le; default := Some (VInt d) |}.

(** [name: str = Field(default=d, ...)] *)
Definition str_field (name : string) (d : string) : FieldInfo :=
  {| fname := name; annotation := TStr; default := Some (VStr d) |}.

(** [name: bool = Field(default=d, ...)] *)
Definition bool_field (name : string) (d : bool) : FieldInfo :=
  {| fname := name; annotation := TBool; default := Some (VBool d) |}.

Definition field_names (cls : ParamsModel) : list string :=
  map fname (fields cls).

Definition TrafficInfoParams : ParamsModel :=
  {| title := "TrafficInfoParams";
     fields :=
       [ opt_str "select";
         opt_str "where";
         opt_str "group_by";
         opt_str "order_by";
         int_field "limit" 10 (Some 1) (Some 100);
         int_field "offset" 0 (Some 0) None;
         opt_str "refine";
         opt_str "exclude";
         opt_str "lang";
         str_field "timezone" "UTC";
         bool_field "include_links" false;
         bool_field "include_app_metas" false ] |}.

Definition RailwayLineParams : ParamsModel :=
  {| title := "RailwayLineParams";
     fields :=
       [ opt_str "select";
         opt_str "where";
         opt_str "group_by";
         opt_str "order_by";
         int_field "limit" 10 (Some 1) (Some 100);
         int_field "offset" 0 (Some 0) None ] |}.

Definition RollingStockParams : ParamsModel :=
  {| title := "RollingStockParams";
     fields :=
       [ opt_str "select";
         opt_str "where";
         opt_str "group_by";
         opt_str "order_by";
         int_field "limit" 10 (Some 1) (Some 100);
         int_field "offset" 0 (Some 0) None ] |}.

(** [StationUsersParams], [TargetActualComparedParams],
    [StationFurnitureParams], [StationServiceParams] and [StoresParams]
    declare the same eleven fields. *)
Definition station_fields : list FieldInfo :=
  [ opt_str "select";
    opt_str "where";
    opt_str "group_by";
    opt_str "order_by";
    int_field "limit" 10 (Some 1) (Some 100);
    int_field "offset" 0 (Some 0) None;
    opt_str "refine";
    opt_str "exclude";
    opt_str "lang";
    bool_field "include_links" false;
    bool_field "include_app_metas" false ].

Definition StationUsersParams : ParamsModel :=
  {| title := "StationUsersParams"; fields := station_fields |}.

Definition TargetActualComparedParams : ParamsModel :=
  {| title := "TargetActualComparedParams"; fields := station_fields |}.

Definition StationFurnitureParams : ParamsModel :=
  {| title := "StationFurnitureParams"; fields := station_fields |}.

Definition StationServiceParams : ParamsModel :=
  {| title := "StationServiceParams"; fields := station_fields |}.

Definition StoresParams : ParamsModel :=
  {| title := "StoresParams"; fields := station_fields |}.

Definition FincanceScreenerParams : ParamsModel :=
  {| title := "FincanceScreenerParams";
     fields := [ str_field "screenerOptions" "day_gainers" ] |}.

(** A validated model instance: its fields, in declaration order. *)
Abbreviation Model := (list (string * value)).

(** [params.model_dump(exclude_none=True)] *)
Definition model_dump_exclude_none (m : Model) : Bag :=
  filter (fun kv => negb (is_none (snd kv))) m.

(** ** pydantic: response models

    Every [*Response] class of the sources declares a required [int] and a
    required list of result items. *)

Record ResponseModel : Type := {
  rtitle : string;
  count_field : string;
  list_field : string;
  item_model : ResultModel
}.

Definition sbb_response (name : string) (m : ResultModel) : ResponseModel :=
  {| rtitle := name; count_field := "total_count"; list_field := "results";
     item_model := m |}.

Definition TrafficInfoResponse := sbb_response "TrafficInfoResponse" TrafficInfoResult.
Definition RailwayLineResponse := sbb_response "RailwayLineResponse" RailwayLineResult.
Definition RollingStockResponse := sbb_response "RollingStockResponse" RollingStockResult.
Definition StationUsersResponse := sbb_response "StationUsersResponse" StationUsersResult.
Definition TargetActualComparedResponse :=
  sbb_response "TargetActualComparedResponse" TargetActualComparedResult.
Definition StationFurnitureResponse :=
  sbb_response "StationFurnitureResponse" StationFurnitureResult.
Definition StationServiceResponse :=
  sbb_response "StationServiceResponse" StationServiceResult.
Definition StoresResponse := sbb_response "StoresResponse" StoresResult.

Definition FincanceScreenerResponse : ResponseModel :=
  {| rtitle := "FincanceScreenerResponse"; count_field := "count";
     list_field := "quotes"; item_model := FincanceScreenerResult |}.

(** ** Upstream, log, content blocks *)

Record Request : Type := {
  url : string;
  params : Bag
}.

Record HttpResponse : Type := {
  status_code : Z;
  (** [None]: the body is not JSON *)
  json_body : option value
}.

(** [log.error(f"{prefix}{e}")]; the string form of [e] stays symbolic. *)
Inductive LogRecord : Type :=
| LogError (prefix : string) (e : PyExn).

(** [mcp.types]: the three content variants a handler may return. *)
Inductive ContentBlock : Type :=
| TextContent (text : string)
| ImageContent (data mimeType : string)
| EmbeddedResource (uri : string).

Definition BASE_URL : string := "https://data.sbb.ch/api/explore/v2.1".

(** The keys of yfinance's predefined screener bodies. *)
Definition PREDEFINED_SCREENER_KEYS : list string :=
  [ "aggressive_small_caps"; "day_gainers"; "day_losers";
    "growth_technology_stocks"; "most_actives"; "most_shorted_stocks";
    "small_cap_gainers"; "undervalued_growth_stocks";
    "undervalued_large_caps"; "conservative_foreign_funds";
    "high_yield_bond"; "portfolio_anchors"; "solid_large_growth_funds";
    "solid_midcap_growth_funds"; "top_mutual_funds" ].

Section Validation.
Context {ext : Externals}.

Definition int_validator (v : value) : ErrorType + Z :=
  match v with
  | VInt n => inr n
  | VBool b => inr (if b then 1 else 0)
  | VStr s => match str_as_int s with Some n => inr n | None => inl int_parsing end
  | VFloat x => match float_as_int x with Some n => inr n | None => inl int_from_float end
  | _ => inl int_type
  end.

(** The constraints of [Field(ge=..., le=...)], both bounds inclusive. *)
Definition check_bounds (ge le : option Z) (n : Z) : ErrorType + Z :=
  match le with
  | Some hi => if hi <? n then inl (less_than_equal hi) else
      match ge with
      | Some lo => if n <? lo then inl (greater_than_equal lo) else inr n
      | None => inr n
      end
  | None =>
      match ge with
      | Some lo => if n <? lo then inl (greater_than_equal lo) else inr n
      | None => inr n
      end
  end.

Definition str_validator (v : value) : ErrorType + string :=
  match v with
  | VStr s => inr s
  | _ => inl string_type
  end.

Definition bool_validator (v : value) : ErrorType + bool :=
  match v with
  | VBool b => inr b
  | VStr s => str_as_bool s
  | VInt n => int_as_bool n
  | VFloat x => match float_as_int x with
                | Some n => match int_as_bool n with
                            | inr b => inr b
                            | inl _ => inl bool_parsing
                            end
                | None => inl bool_type
                end
  | _ => inl bool_type
  end.

Fixpoint validate_field (t : FieldType) (v : value) : ErrorType + value :=
  match t with
  | TInt ge le =>
      match int_validator v with
      | inr n => match check_bounds ge le n with
                 | inr n' => inr (VInt n')
                 | inl e => inl e
                 end
      | inl e => inl e
      end
  | TStr => match str_validator v with inr s => inr (VStr s) | inl e => inl e end
  | TBool => match bool_validator v with inr b => inr (VBool b) | inl e => inl e end
  | TOptional t' => if is_none v then inr VNone else validate_field t' v
  end.

(** Construction of a model from keyword arguments: every declared field
    is looked up by name; a field that is absent takes its default; keys
    that are not declared are never looked at (pydantic's default
    [extra='ignore']); all errors are collected. *)
Fixpoint validate_fields (fs : list FieldInfo) (kwargs : Bag)
  : list ErrorDetails * Model :=
  match fs with
  | [] => ([], [])
  | f :: fs' =>
      let '(errs, vals) := validate_fields fs' kwargs in
      match dict_get (fname f) kwargs with
      | Some v =>
          match validate_field (annotation f) v with
          | inr v' => (errs, (fname f, v') :: vals)
          | inl e => (at_field (fname f) e :: errs, vals)
          end
      | None =>
          match default f with
          | Some d => (errs, (fname f, d) :: vals)
          | None => (at_field (fname f) missing :: errs, vals)
          end
      end
  end.

Definition model_validate (cls : ParamsModel) (kwargs : Bag) : PyExn + Model :=
  match validate_fields (fields cls) kwargs with
  | ([], m) => inr m
  | (errs, _) => inl (ValidationError (title cls) errs)
  end.

(** A validated [*Response] instance. *)
Record Response : Type := {
  response_model : ResponseModel;
  count : Z;
  items : list Item
}.

Definition prefix_loc (field : string) (i : nat) (e : ErrorDetails) : ErrorDetails :=
  {| loc := LField field :: LIndex i :: loc e; type_ := type_ e |}.

(** A list of models: every element is validated, the errors of all failing
    elements are reported under [field, index]. *)
Fixpoint validate_items (m : ResultModel) (field : string) (i : nat)
    (l : list value) : list ErrorDetails + list Item :=
  match l with
  | [] => inr []
  | v :: l' =>
      match item_validate m v, validate_items m field (S i) l' with
      | inr it, inr its => inr (it :: its)
      | inr _, inl errs => inl errs
      | inl es, inr _ => inl (map (prefix_loc field i) es)
      | inl es, inl errs => inl (map (prefix_loc field i) es ++ errs)
      end
  end.

Definition validate_count (cls : ResponseModel) (kwargs : Bag)
  : list ErrorDetails + Z :=
  match dict_get (count_field cls) kwargs with
  | None => inl [at_field (count_field cls) missing]
  | Some v =>
      match int_validator v with
      | inr n => inr n
      | inl e => inl [at_field (count_field cls) e]
      end
  end.

Definition validate_list (cls : ResponseModel) (kwargs : Bag)
  : list ErrorDetails + list Item :=
  match dict_get (list_field cls) kwargs with
  | None => inl [at_field (list_field cls) missing]
  | Some (VList l) => validate_items (item_model cls) (list_field cls) 0 l
  | Some _ => inl [at_field (list_field cls) list_type]
  end.

Definition response_validate (cls : ResponseModel) (kwargs : Bag)
  : PyExn + Response :=
  match validate_count cls kwargs, validate_list cls kwargs with
  | inr n, inr its =>
      inr {| response_model := cls; count := n; items := its |}
  | inl e1, inl e2 => inl (ValidationError (rtitle cls) (e1 ++ e2))
  | inl e1, inr _ => inl (ValidationError (rtitle cls) e1)
  | inr _, inl e2 => inl (ValidationError (rtitle cls) e2)
  end.

(** [str(response)]: pydantic prints [field=repr(value)], blank-separated. *)
Definition model_str (r : Response) : string :=
  count_field (response_model r) +:+ "=" +:+ pretty (count r) +:+ " " +:+
  list_field (response_model r) +:+ "=[" +:+
  String.concat ", " (map (item_repr (item_model (response_model r))) (items r))
  +:+ "]".

End Validation.

(** ** The world and the monad of effects *)

Record World : Type := {
  (** what [httpx.get] answers to a request: a response, or a transport
      failure *)
  httpx_reply : Request -> PyExn + HttpResponse;
  (** what the yfinance screener answers for the body it was given *)
  screener_reply : option string -> PyExn + value;
  (** the requests issued to data.sbb.ch so far *)
  requests : list Request;
  (** the predefined body the global [screener] object holds *)
  screener_body : option string;
  (** the bodies the screener was queried with so far *)
  screener_queries : list (option string);
  log : list LogRecord
}.

Definition M (A : Type) : Type := World -> World * (PyExn + A).

#[global] Instance M_ret : MRet M := fun A x w => (w, inr x).

#[global] Instance M_bind : MBind M := fun A B f m w =>
  match m w with
  | (w', inr x) => f x w'
  | (w', inl e) => (w', inl e)
  end.

Definition raise {A : Type} (e : PyExn) : M A := fun w => (w, inl e).

(** [try: body except Exception as e: handler] *)
Definition try_except {A : Type} (body : M A) (handler : PyExn -> M A) : M A :=
  fun w =>
    match body w with
    | (w', inl e) => handler e w'
    | (w', inr x) => (w', inr x)
    end.

Definition lift {A : Type} (r : PyExn + A) : M A := fun w => (w, r).

Definition record_request (req : Request) (w : World) : World :=
  {| httpx_reply := httpx_reply w; screener_reply := screener_reply w;
     requests := requests w ++ [req]; screener_body := screener_body w;
     screener_queries := screener_queries w; log := log w |}.

Definition set_screener_body (k : string) (w : World) : World :=
  {| httpx_reply := httpx_reply w; screener_reply := screener_reply w;
     requests := requests w; screener_body := Some k;
     screener_queries := screener_queries w; log := log w |}.

Definition record_screener_query (b : option string) (w : World) : World :=
  {| httpx_reply := httpx_reply w; screener_reply := screener_reply w;
     requests := requests w; screener_body := screener_body w;
     screener_queries := screener_queries w ++ [b]; log := log w |}.

Definition append_log (r : LogRecord) (w : World) : World :=
  {| httpx_reply := httpx_reply w; screener_reply := screener_reply w;
     requests := requests w; screener_body := screener_body w;
     screener_queries := screener_queries w; log := log w ++ [r] |}.

(** [log.error(f"{prefix}{e}")] *)
Definition log_error (prefix : string) (e : PyExn) : M unit :=
  fun w => (append_log (LogError prefix e) w, inr tt).

(** [httpx.get(endpoint, params=...)] *)
Definition httpx_get (endpoint : string) (query : Bag) : M HttpResponse :=
  fun w =>
    let req := {| url := endpoint; params := query |} in
    (record_request req w, httpx_reply w req).

(** [response.raise_for_status()]: only 2xx is a success. *)
Definition is_success (r : HttpResponse) : bool :=
  (200 <=? status_code r) && (status_code r <=? 299).

Definition raise_for_status (r : HttpResponse) : M unit :=
  if is_success r then mret tt else raise (HTTPStatusError (status_code r)).

(** [response.json()] *)
Definition response_json (r : HttpResponse) : M value :=
  match json_body r with
  | Some v => mret v
  | None => raise JSONDecodeError
  end.

(** The [**] of a call: its operand must be a mapping; [None], a list or a
    scalar is a [TypeError]. *)
Definition unpack_error : PyExn :=
  TypeError "argument after ** must be a mapping".

Definition unpack (v : value) : M Bag :=
  match v with
  | VDict d => mret d
  | _ => raise unpack_error
  end.

(** [arguments: dict[str, Any] | None] as a value. *)
Definition arguments_value (arguments : option Bag) : value :=
  match arguments with
  | Some d => VDict d
  | None => VNone
  end.

(** [arguments or {}]: [None] and the empty dict are both falsy. *)
Definition or_empty (arguments : option Bag) : value :=
  match arguments with
  | Some (kv :: d) => VDict (kv :: d)
  | _ => VDict []
  end.

(** [obj.name] on a model instance *)
Definition getattr (m : Model) (name : string) : M value :=
  match dict_get name m with
  | Some v => mret v
  | None => raise (AttributeError name)
  end.

(** [screener.set_predefined_body(k)]: an unknown key is a [ValueError];
    otherwise the global screener holds the body of that key. *)
Definition set_predefined_body (k : value) : M unit :=
  match k with
  | VStr s =>
      if str_in s PREDEFINED_SCREENER_KEYS
      then fun w => (set_screener_body s w, inr tt)
      else raise (ValueError "Invalid key provided for predefined screener")
  | _ => raise (ValueError "Invalid key provided for predefined screener")
  end.

(** [screener.response]: queries upstream with the body the screener holds. *)
Definition screener_response : M value :=
  fun w =>
    (record_screener_query (screener_body w) w,
     screener_reply w (screener_body w)).

Section Providers.
Context {ext : Externals}.

(** Calling a [*Params] class with unpacked keyword arguments. *)
Definition construct (cls : ParamsModel) (kwargs : Bag) : M Model :=
  lift (model_validate cls kwargs).

(** Calling a [*Response] class with unpacked keyword arguments. *)
Definition construct_response (cls : ResponseModel) (kwargs : Bag) : M Response :=
  lift (response_validate cls kwargs).

(** *** ch_sbb.py: data fetching functions *)

Definition fetch_rail_traffic_info (params : Model) : M Response :=
  let endpoint :=
    BASE_URL +:+ "/catalog/datasets/rail-traffic-information/records" in
  response ← httpx_get endpoint (model_dump_exclude_none params);
  raise_for_status response;;
  payload ← response_json response;
  kwargs ← unpack payload;
  construct_response TrafficInfoResponse kwargs.

Definition fetch_railway_lines (params : Model) : M Response :=
  let endpoint := BASE_URL +:+ "/catalog/datasets/linie/records" in
  response ← httpx_get endpoint (model_dump_exclude_none params);
  raise_for_status response;;
  payload ← response_json response;
  kwargs ← unpack payload;
  construct_response RailwayLineResponse kwargs.

Definition fetch_rolling_stock (params : Model) : M Response :=
  let endpoint := BASE_URL +:+ "/catalog/datasets/rollmaterial/records" in
  response ← httpx_get endpoint (model_dump_exclude_none params);
  raise_for_status response;;
  payload ← response_json response;
  kwargs ← unpack payload;
  construct_response RollingStockResponse kwargs.

Definition fetch_usage_data (params : Model) : M Response :=
  let endpoint :=
    BASE_URL +:+ "/catalog/datasets/anzahl-sbb-bahnhofbenutzer/records?limit=100" in
  response ← httpx_get endpoint (model_dump_exclude_none params);
  raise_for_status response;;
  payload ← response_json response;
  kwargs ← unpack payload;
  construct_response StationUsersResponse kwargs.

Definition fetch_target_actual_compared (params : Model) : M Response :=
  let endpoint :=
    BASE_URL +:+ "/catalog/datasets/ist-daten-sbb/records?limit=100" in
  response ← httpx_get endpoint (model_dump_exclude_none params);
  raise_for_status response;;
  payload ← response_json response;
  kwargs ← unpack payload;
  construct_response TargetActualComparedResponse kwargs.

Definition fetch_station_furnitures (params : Model) : M Response :=
  let endpoint :=
    BASE_URL +:+ "/catalog/datasets/mobiliar-im-bahnhof/records?limit=100" in
  response ← httpx_get endpoint (model_dump_exclude_none params);
  raise_for_status response;;
  payload ← response_json response;
  kwargs ← unpack payload;
  construct_response StationFurnitureResponse kwargs.

Definition fetch_station_services (params : Model) : M Response :=
  let endpoint :=
    BASE_URL +:+ "/catalog/datasets/haltestelle-offnungszeiten/records?limit=100" in
  response ← httpx_get endpoint (model_dump_exclude_none params);
  raise_for_status response;;
  payload ← response_json response;
  kwargs ← unpack payload;
  construct_response StationServiceResponse kwargs.

Definition fetch_stores_data (params : Model) : M Response :=
  let endpoint :=
    BASE_URL +:+ "/catalog/datasets/offnungszeiten-shops/records?limit=100" in
  response ← httpx_get endpoint (model_dump_exclude_none params);
  raise_for_status response;;
  payload ← response_json response;
  kwargs ← unpack payload;
  construct_response StoresResponse kwargs.

(** *** glob_screeners.py: data fetching function

    The filter is read from a freshly constructed [FincanceScreenerParams()],
    not from [params]. *)
Definition fetch_screener_data (params : Model) : M Response :=
  fresh ← construct FincanceScreenerParams [];
  filter ← getattr fresh "screenerOptions";
  set_predefined_body filter;;
  response ← screener_response;
  kwargs ← unpack response;
  construct_response FincanceScreenerResponse kwargs.

(** *** Handler functions

    Each handler calls the fetch function on the argument model built from
    the unpacked [arguments], all inside [try]; the
    [except Exception as e] clause logs and re-raises with a bare [raise].
    The first three handlers unpack [arguments] as it is, the others unpack
    [arguments or {}]. *)

Definition Handler : Type := option Bag -> M (list ContentBlock).

Definition handle_rail_traffic_info (arguments : option Bag) : M (list ContentBlock) :=
  try_except
    (kwargs ← unpack (arguments_value arguments);
     params ← construct TrafficInfoParams kwargs;
     traffic_info_response ← fetch_rail_traffic_info params;
     mret [TextContent (model_str traffic_info_response)])
    (fun e => log_error "Error fetching rail traffic info: " e;; raise e).

Definition handle_railway_lines (arguments : option Bag) : M (list ContentBlock) :=
  try_except
    (kwargs ← unpack (arguments_value arguments);
     params ← construct RailwayLineParams kwargs;
     railway_lines_response ← fetch_railway_lines params;
     mret [TextContent (model_str railway_lines_response)])
    (fun e => log_error "Error fetching railway lines: " e;; raise e).

Definition handle_rolling_stock (arguments : option Bag) : M (list ContentBlock) :=
  try_except
    (kwargs ← unpack (arguments_value arguments);
     params ← construct RollingStockParams kwargs;
     rolling_stock_response ← fetch_rolling_stock params;
     mret [TextContent (model_str rolling_stock_response)])
    (fun e => log_error "Error fetching rolling stock info: " e;; raise e).

Definition handle_station_users (arguments : option Bag) : M (list ContentBlock) :=
  try_except
    (kwargs ← unpack (or_empty arguments);
     params ← construct StationUsersParams kwargs;
     response ← fetch_usage_data params;
     mret [TextContent (model_str response)])
    (fun e => log_error "Error handling endpoint: " e;; raise e).

Definition handle_target_actual_compared (arguments : option Bag) : M (list ContentBlock) :=
  try_except
    (kwargs ← unpack (or_empty arguments);
     params ← construct TargetActualComparedParams kwargs;
     response ← fetch_target_actual_compared params;
     mret [TextContent (model_str response)])
    (fun e => log_error "Error handling endpoint: " e;; raise e).

Definition handle_station_furnitures (arguments : option Bag) : M (list ContentBlock) :=
  try_except
    (kwargs ← unpack (or_empty arguments);
     params ← construct StationFurnitureParams kwargs;
     response ← fetch_station_furnitures params;
     mret [TextContent (model_str response)])
    (fun e => log_error "Error handling endpoint: " e;; raise e).

Definition handle_station_services (arguments : option Bag) : M (list ContentBlock) :=
  try_except
    (kwargs ← unpack (or_empty arguments);
     params ← construct StationServiceParams kwargs;
     response ← fetch_station_services params;
     mret [TextContent (model_str response)])
    (fun e => log_error "Error handling endpoint: " e;; raise e).

Definition hande_stores_data (arguments : option Bag) : M (list ContentBlock) :=
  try_except
    (kwargs ← unpack (or_empty arguments);
     params ← construct StoresParams kwargs;
     response ← fetch_stores_data params;
     mret [TextContent (model_str response)])
    (fun e => log_error "Error handling endpoint: " e;; raise e).

Definition handle_screenerdata (arguments : option Bag) : M (list ContentBlock) :=
  try_except
    (kwargs ← unpack (or_empty arguments);
     params ← construct FincanceScreenerParams kwargs;
     response ← fetch_screener_data params;
     mret [TextContent (model_str response)])
    (fun e => log_error "Error handling endpoint: " e;; raise e).

(** *** Tool registration

    The module-level statements, in source order. [inputSchema] stands for
    [Params.model_json_schema()], the schema generated from the class. *)

Record Tool : Type := {
  name : string;
  description : string;
  inputSchema : ParamsModel
}.

Record Registry : Type := {
  TOOLS : list Tool;
  TOOLS_HANDLERS : gmap string Handler
}.

Definition empty_registry : Registry :=
  {| TOOLS := []; TOOLS_HANDLERS := ∅ |}.

(** [TOOLS.append(tool)] *)
Definition TOOLS_append (t : Tool) (r : Registry) : Registry :=
  {| TOOLS := TOOLS r ++ [t]; TOOLS_HANDLERS := TOOLS_HANDLERS r |}.

(** [TOOLS_HANDLERS[key] = handler] *)
Definition TOOLS_HANDLERS_set (key : string) (h : Handler) (r : Registry) : Registry :=
  {| TOOLS := TOOLS r; TOOLS_HANDLERS := <[key := h]> (TOOLS_HANDLERS r) |}.

Definition tool_names (r : Registry) : list string := map name (TOOLS r).

Definition ch_sbb : Registry :=
  let r := empty_registry in
  let r := TOOLS_append
    {| name := "rail-traffic-info"; description := "Fetch rail traffic information";
       inputSchema := TrafficInfoParams |} r in
  let r := TOOLS_HANDLERS_set "rail-traffic-info" handle_rail_traffic_info r in
  let r := TOOLS_append
    {| name := "railway-lines"; description := "Fetch railway line information";
       inputSchema := RailwayLineParams |} r in
  let r := TOOLS_HANDLERS_set "railway-lines" handle_railway_lines r in
  let r := TOOLS_append
    {| name := "rolling-stock"; description := "Fetch rolling stock (vehicle) information";
       inputSchema := RollingStockParams |} r in
  let r := TOOLS_HANDLERS_set "rolling-stock" handle_rolling_stock r in
  let r := TOOLS_append
    {| name := "station-users"; description := "Description of what this endpoint does";
       inputSchema := StationUsersParams |} r in
  let r := TOOLS_HANDLERS_set "station-users" handle_station_users r in
  let r := TOOLS_append
    {| name := "target-actual-compared"; description := "Description of what this endpoint does";
       inputSchema := TargetActualComparedParams |} r in
  let r := TOOLS_HANDLERS_set "target-actual-compared" handle_target_actual_compared r in
  let r := TOOLS_append
    {| name := "station-furniture"; description := "Description of what this endpoint does";
       inputSchema := StationFurnitureParams |} r in
  let r := TOOLS_HANDLERS_set "station-furniture" handle_station_furnitures r in
  let r := TOOLS_append
    {| name := "station-services"; description := "Description of what this endpoint does";
       inputSchema := StationServiceParams |} r in
  let r := TOOLS_HANDLERS_set "station-services" handle_station_services r in
  let r := TOOLS_append
    {| name := "station-stores"; description := "Description of what this endpoint does";
       inputSchema := StoresParams |} r in
  let r := TOOLS_HANDLERS_set "station-stores" hande_stores_data r in
  r.

Definition glob_screeners : Registry :=
  let r := empty_registry in
  let r := TOOLS_append
    {| name := "stock-screendata"; description := "Description of what this endpoint does";
       inputSchema := FincanceScreenerParams |} r in
  let r := TOOLS_HANDLERS_set "stock-screendata" handle_screenerdata r in
  r.

(** *** The endpoints, one row per handler

    What each handler's [try] block is made of: how [arguments] is turned
    into the operand of [**], the argument model, the fetch function, and
    the prefix of the logged message. *)

Record Endpoint : Type := {
  ep_handler : Handler;
  ep_operand : option Bag -> value;
  ep_params : ParamsModel;
  ep_fetch : Model -> M Response;
  ep_prefix : string
}.

(** The expression evaluated inside [try]: unpack the operand, build the
    argument model, call the fetch function. *)
Definition try_body (ep : Endpoint) (arguments : option Bag) : M Response :=
  kwargs ← unpack (ep_operand ep arguments);
  params ← construct (ep_params ep) kwargs;
  ep_fetch ep params.

Definition ep_rail_traffic_info : Endpoint :=
  {| ep_handler := handle_rail_traffic_info; ep_operand := arguments_value;
     ep_params := TrafficInfoParams; ep_fetch := fetch_rail_traffic_info;
     ep_prefix := "Error fetching rail traffic info: " |}.

Definition ep_railway_lines : Endpoint :=
  {| ep_handler := handle_railway_lines; ep_operand := arguments_value;
     ep_params := RailwayLineParams; ep_fetch := fetch_railway_lines;
     ep_prefix := "Error fetching railway lines: " |}.

Definition ep_rolling_stock : Endpoint :=
  {| ep_handler := handle_rolling_stock; ep_operand := arguments_value;
     ep_params := RollingStockParams; ep_fetch := fetch_rolling_stock;
     ep_prefix := "Error fetching rolling stock info: " |}.

Definition ep_station_users : Endpoint :=
  {| ep_handler := handle_station_users; ep_operand := or_empty;
     ep_params := StationUsersParams; ep_fetch := fetch_usage_data;
     ep_prefix := "Error handling endpoint: " |}.

Definition ep_target_actual_compared : Endpoint :=
  {| ep_handler := handle_target_actual_compared; ep_operand := or_empty;
     ep_params := TargetActualComparedParams; ep_fetch := fetch_target_actual_compared;
     ep_prefix := "Error handling endpoint: " |}.

Definition ep_station_furnitures : Endpoint :=
  {| ep_handler := handle_station_furnitures; ep_operand := or_empty;
     ep_params := StationFurnitureParams; ep_fetch := fetch_station_furnitures;
     ep_prefix := "Error handling endpoint: " |}.

Definition ep_station_services : Endpoint :=
  {| ep_handler := handle_station_services; ep_operand := or_empty;
     ep_params := StationServiceParams; ep_fetch := fetch_station_services;
     ep_prefix := "Error handling endpoint: " |}.

Definition ep_stores_data : Endpoint :=
  {| ep_handler := hande_stores_data; ep_operand := or_empty;
     ep_params := StoresParams; ep_fetch := fetch_stores_data;
     ep_prefix := "Error handling endpoint: " |}.

Definition ep_screenerdata : Endpoint :=
  {| ep_handler := handle_screenerdata; ep_operand := or_empty;
     ep_params := FincanceScreenerParams; ep_fetch := fetch_screener_data;
     ep_prefix := "Error handling endpoint: " |}.

Definition endpoints : list Endpoint :=
  [ ep_rail_traffic_info; ep_railway_lines; ep_rolling_stock;
    ep_station_users; ep_target_actual_compared; ep_station_furnitures;
    ep_station_services; ep_stores_data; ep_screenerdata ].

End Providers.

(** ** Sample instances, used to run the definitions on concrete inputs *)

Definition sample_externals : Externals :=
  {| str_as_int := fun _ => None;
     float_as_int := fun _ => None;
     Item := value;
     item_validate := fun _ v =>
       match v with
       | VDict _ => inr v
       | _ => inl [ {| loc := []; type_ := item_error "model_type" |} ]
       end;
     item_repr := fun _ _ => "Item()" |}.

(** A world whose SBB upstream answers every request with [reply]. *)
Definition world_of (reply : PyExn + HttpResponse) : World :=
  {| httpx_reply := fun _ => reply;
     screener_reply := fun _ => inl (RequestError "offline");
     requests := []; screener_body := None; screener_queries := [];
     log := [] |}.

Definition world_503 : World :=
  world_of (inr {| status_code := 503; json_body := None |}).

Definition world_empty_object : World :=
  world_of (inr {| status_code := 200; json_body := Some (VDict []) |}).

Definition world_two_results : World :=
  world_of (inr {| status_code := 200;
                   json_body := Some (VDict [ ("total_count", VInt 2);
                                              ("results", VList [VDict []; VDict []]) ]) |}).

(** ** Predicates used in the statements *)

(** The failure kinds of the specification's taxonomy. *)
Definition classified_kinds : list string :=
  [ "UpstreamUnavailable"; "UpstreamMalformedResponse"; "InternalFault" ].

Definition classified (e : PyExn) : Prop := exn_class e ∈ classified_kinds.

(** [del d[k]], for every occurrence of the key. *)
Definition dict_del (k : string) (d : Bag) : Bag :=
  filter (fun kv => negb (String.eqb k (fst kv))) d.

(** A value that already has the declared type and lies within the declared
    bounds. *)
Fixpoint conforms (t : FieldType) (v : value) : bool :=
  match t, v with
  | TInt ge le, VInt n =>
      match ge with Some lo => lo <=? n | None => true end &&
      match le with Some hi => n <=? hi | None => true end
  | TStr, VStr _ => true
  | TBool, VBool _ => true
  | TOptional t', _ => is_none v || conforms t' v
  | _, _ => false
  end.

(** Every declared field that the bag gives has a conforming value. *)
Definition respects (cls : ParamsModel) (kwargs : Bag) : bool :=
  forallb
    (fun f => match dict_get (fname f) kwargs with
              | Some v => conforms (annotation f) v
              | None => true
              end)
    (fields cls).

(** The instance in which every field holds its declared default. *)
Definition default_model (cls : ParamsModel) : Model :=
  omap (fun f => match default f with
                 | Some d => Some (fname f, d)
                 | None => None
                 end) (fields cls).

(** The registry invariant: names are pairwise distinct, and the handlers
    table has exactly the registered names as keys. *)
Definition registry_inv (r : Registry) : Prop :=
  NoDup (tool_names r) /\ dom (TOOLS_HANDLERS r) = list_to_set (tool_names r).

Section Shapes.
Context {ext : Externals}.

(** What a validated instance holds for a declared field: the validated
    input, or the default when the bag has no such key. *)
Definition field_outcome (kwargs : Bag) (f : FieldInfo) (x : value) : Prop :=
  match dict_get (fname f) kwargs with
  | Some v => validate_field (annotation f) v = inr x
  | None => default f = Some x
  end.

(** A JSON object fits a response model when it has the count, an integer,
    and the list, whose elements are all valid result items. *)
Definition fits (cls : ResponseModel) (payload : Bag) : Prop :=
  (exists v n, dict_get (count_field cls) payload = Some v /\
               int_validator v = inr n) /\
  (exists l, dict_get (list_field cls) payload = Some (VList l) /\
             Forall (fun x => exists it, item_validate (item_model cls) x = inr it) l).

Definition fits_value (cls : ResponseModel) (v : value) : Prop :=
  exists payload, v = VDict payload /\ fits cls payload.

End Shapes.

(** The request [fetch_rail_traffic_info] issues for [params]. *)
Definition rail_traffic_request (params : Model) : Request :=
  {| url := BASE_URL +:+ "/catalog/datasets/rail-traffic-information/records";
     params := model_dump_exclude_none params |}.

(** ** The routes of ch_sbb

    The eight fetch functions of ch_sbb have the same body; they differ in
    the URL requested and in the response model. One row per function. *)

Section Routes.
Context {ext : Externals}.

Record SbbRoute : Type := {
  route_ep : Endpoint;
  route_url : string;
  route_response : ResponseModel
}.

Definition sbb_routes : list SbbRoute :=
  [
    {| route_ep := ep_rail_traffic_info;
       route_url := BASE_URL +:+ "/catalog/datasets/rail-traffic-information/records";
       route_response := TrafficInfoResponse |};
    {| route_ep := ep_railway_lines;
       route_url := BASE_URL +:+ "/catalog/datasets/linie/records";
       route_response := RailwayLineResponse |};
    {| route_ep := ep_rolling_stock;
       route_url := BASE_URL +:+ "/catalog/datasets/rollmaterial/records";
       route_response := RollingStockResponse |};
    {| route_ep := ep_station_users;
       route_url := BASE_URL +:+ "/catalog/datasets/anzahl-sbb-bahnhofbenutzer/records?limit=100";
       route_response := StationUsersResponse |};
    {| route_ep := ep_target_actual_compared;
       route_url := BASE_URL +:+ "/catalog/datasets/ist-daten-sbb/records?limit=100";
       route_response := TargetActualComparedResponse |};
    {| route_ep := ep_station_furnitures;
       route_url := BASE_URL +:+ "/catalog/datasets/mobiliar-im-bahnhof/records?limit=100";
       route_response := StationFurnitureResponse |};
    {| route_ep := ep_station_services;
       route_url := BASE_URL +:+ "/catalog/datasets/haltestelle-offnungszeiten/records?limit=100";
       route_response := StationServiceResponse |};
    {| route_ep := ep_stores_data;
       route_url := BASE_URL +:+ "/catalog/datasets/offnungszeiten-shops/records?limit=100";
       route_response := StoresResponse |} ].

(** The first row, by name. *)
Definition rail_traffic_route : SbbRoute :=
  {| route_ep := ep_rail_traffic_info;
     route_url := BASE_URL +:+ "/catalog/datasets/rail-traffic-information/records";
     route_response := TrafficInfoResponse |}.

(** The request a route issues for [params]. *)
Definition route_request (rt : SbbRoute) (params : Model) : Request :=
  {| url := route_url rt; params := model_dump_exclude_none params |}.

(** The body the eight fetch functions share. *)
Definition sbb_fetch (endpoint : string) (cls : ResponseModel) (params : Model)
  : M Response :=
  response ← httpx_get endpoint (model_dump_exclude_none params);
  raise_for_status response;;
  payload ← response_json response;
  kwargs ← unpack payload;
  construct_response cls kwargs.

(** What validation of a response yields from a JSON object: the count as
    given, and the validated items, one per element and in the order of the
    payload. *)
Definition validated_from (cls : ResponseModel) (payload : Bag) (r : Response) : Prop :=
  response_model r = cls /\
  (exists v, dict_get (count_field cls) payload = Some v /\
             int_validator v = inr (count r)) /\
  (exists l, dict_get (list_field cls) payload = Some (VList l) /\
             Forall2 (fun x it => item_validate (item_model cls) x = inr it)
               l (items r)).

(** The errors validation reports for a field: a given value that does not
    validate, or a required field that is not given. *)
Definition field_error (kwargs : Bag) (f : FieldInfo) (e : ErrorDetails) : Prop :=
  (exists v t, dict_get (fname f) kwargs = Some v /\
               validate_field (annotation f) v = inl t /\
               e = at_field (fname f) t) \/
  (dict_get (fname f) kwargs = None /\ default f = None /\
   e = at_field (fname f) missing).

End Routes.

(** A value outside the bounds of [Field(ge=..., le=...)]. *)
Definition out_of_bounds (ge le : option Z) (n : Z) : Prop :=
  (exists lo, ge = Some lo /\ n < lo) \/ (exists hi, le = Some hi /\ hi < n).

(** The argument models of the two modules. *)
Definition sbb_params_models : list ParamsModel :=
  [ TrafficInfoParams; RailwayLineParams; RollingStockParams;
    StationUsersParams; TargetActualComparedParams; StationFurnitureParams;
    StationServiceParams; StoresParams ].

Definition params_models : list ParamsModel :=
  sbb_params_models ++ [ FincanceScreenerParams ].

Definition is_optional (t : FieldType) : bool :=
  match t with TOptional _ => true | _ => false end.

(** The shape the argument models of the sources have: every field has a
    default, the default has the declared type and lies within the declared
    bounds, an optional field defaults to [None], and no name is declared
    twice. *)
Definition default_fits (f : FieldInfo) : bool :=
  match default f with
  | Some d =>
      conforms (annotation f) d &&
      (if is_optional (annotation f) then is_none d else true)
  | None => false
  end.

Definition well_formed (cls : ParamsModel) : bool :=
  forallb default_fits (fields cls) && bool_decide (NoDup (field_names cls)).

(** * Properties *)

(** ** Dictionaries *)

Lemma dict_get_del_ne (k k' : string) (d : Bag) :
  k <> k' -> dict_get k' (dict_del k d) = dict_get k' d.
Proof.
  intros Hne. induction d as [|[k0 v0] d IH]; [done|].
  unfold dict_del in *. rewrite filter_cons.
  destruct (decide _) as [Hd|Hd]; simpl in *.
  - by rewrite IH.
  - destruct (String.eqb_spec k k0) as [->|]; [|by destruct Hd].
    destruct (String.eqb_spec k' k0); [congruence|done].
Qed.

Lemma dict_get_del_eq (k : string) (d : Bag) : dict_get k (dict_del k d) = None.
Proof.
  induction d as [|[k0 v0] d IH]; [done|].
  unfold dict_del in *. rewrite filter_cons.
  destruct (decide _) as [Hd|Hd]; simpl in *; [|done].
  destruct (String.eqb_spec k k0); [by destruct Hd|done].
Qed.

Lemma dict_get_set_ne (k k' : string) (v : value) (d : Bag) :
  k <> k' -> dict_get k' (dict_set k v d) = dict_get k' d.
Proof.
  intros Hne. induction d as [|[k0 v0] d IH]; simpl.
  - destruct (String.eqb_spec k' k); congruence.
  - destruct (String.eqb_spec k k0) as [->|Hk0]; simpl.
    + destruct (String.eqb_spec k' k0); congruence.
    + destruct (String.eqb_spec k' k0); [done|apply IH].
Qed.

Lemma dict_get_keys (k : string) (d : Bag) :
  k ∉ keys d -> dict_get k d = None.
Proof.
  induction d as [|[k0 v0] d IH]; [done|].
  simpl. intros Hk. apply not_elem_of_cons in Hk as [Hne Hk].
  destruct (String.eqb_spec k k0); [done|by apply IH].
Qed.

Lemma dict_get_dump (k : string) (v : value) (m : Model) :
  dict_get k m = Some v -> v <> VNone ->
  dict_get k (model_dump_exclude_none m) = Some v.
Proof.
  intros Hget Hv. induction m as [|[k0 v0] m IH]; [done|].
  unfold model_dump_exclude_none in *. rewrite filter_cons.
  destruct (decide _) as [Hd|Hd]; simpl in *.
  - destruct (String.eqb_spec k k0); [done|by apply IH].
  - destruct (String.eqb_spec k k0); [|by apply IH].
    injection Hget as ->. destruct v; simpl in Hd; try by destruct Hd.
Qed.

(** Membership in a list that is written out. *)
Ltac in_list :=
  simpl; repeat first [ apply list_elem_of_here | apply list_elem_of_further ].

Section Properties.
Context {ext : Externals}.

(** ** Argument validation *)

(** Validation reads the bag only at the declared names. *)
Lemma validate_fields_ext (fs : list FieldInfo) (d1 d2 : Bag) :
  (forall f, f ∈ fs -> dict_get (fname f) d1 = dict_get (fname f) d2) ->
  validate_fields fs d1 = validate_fields fs d2.
Proof.
  induction fs as [|f fs IH]; intros Hext; [done|].
  simpl. rewrite IH by (intros; apply Hext; by right).
  rewrite (Hext f) by by left. done.
Qed.


(** When no error is collected, every declared field is in the instance,
    with the validated input or the default. *)
Lemma validate_fields_ok (fs : list FieldInfo) (d : Bag) (m : Model) :
  validate_fields fs d = ([], m) ->
  Forall2 (fun f kv => kv.1 = fname f /\ field_outcome d f kv.2) fs m.
Proof.
  revert m. induction fs as [|f fs IH]; simpl; intros m Hm.
  - injection Hm as <-. constructor.
  - destruct (validate_fields fs d) as [errs vals].
    unfold field_outcome.
    destruct (dict_get (fname f) d) as [v|] eqn:Hget.
    + destruct (validate_field _ v) as [e|v'] eqn:Hv; [done|].
      injection Hm as -> <-. constructor; [by rewrite Hget|by apply IH].
    + destruct (default f) as [dv|] eqn:Hd; [|done].
      injection Hm as -> <-. constructor; [by rewrite Hget|by apply IH].
Qed.

Lemma model_validate_inr (cls : ParamsModel) (d : Bag) (m : Model) :
  model_validate cls d = inr m -> validate_fields (fields cls) d = ([], m).
Proof.
  unfold model_validate. destruct (validate_fields _ d) as [[|e errs] vals]; [|done].
  by intros [= ->].
Qed.

Lemma lookup_validated (fs : list FieldInfo) (d : Bag) (m : Model) (f : FieldInfo) :
  Forall2 (fun f kv => kv.1 = fname f /\ field_outcome d f kv.2) fs m ->
  NoDup (map fname fs) -> f ∈ fs ->
  exists x, dict_get (fname f) m = Some x /\ field_outcome d f x.
Proof.
  induction 1 as [|f0 [k x] fs m [Hk Hx] Hrest IH]; intros Hnd Hin.
  - by apply elem_of_nil in Hin.
  - simpl in *. subst k. apply NoDup_cons in Hnd as [Hnotin Hnd].
    apply elem_of_cons in Hin as [->|Hin].
    + exists x. by rewrite String.eqb_refl.
    + destruct (String.eqb_spec (fname f) (fname f0)) as [Heq|Hne].
      * exfalso. apply Hnotin. rewrite <- Heq. by apply list_elem_of_fmap_2.
      * by apply IH.
Qed.

(** A validated instance gives each declared field the validated input, or
    the default when the bag has no such key. *)
Lemma model_validate_field (cls : ParamsModel) (d : Bag) (m : Model) (f : FieldInfo) :
  model_validate cls d = inr m ->
  NoDup (field_names cls) -> f ∈ fields cls ->
  exists x, dict_get (fname f) m = Some x /\ field_outcome d f x.
Proof.
  intros Hm Hnd Hin. apply model_validate_inr, validate_fields_ok in Hm.
  by eapply lookup_validated.
Qed.

Lemma check_bounds_conforms (ge le : option Z) (n : Z) :
  conforms (TInt ge le) (VInt n) = true -> check_bounds ge le n = inr n.
Proof.
  simpl. intros [Hge Hle]%andb_true_iff. unfold check_bounds.
  destruct le as [hi|], ge as [lo|]; repeat case_match; try done; lia.
Qed.

(** A conforming value is accepted unchanged. *)
Lemma conforms_validate (t : FieldType) (v : value) :
  conforms t v = true -> validate_field t v = inr v.
Proof.
  induction t as [ge le| | |t IH]; intros Hc.
  - destruct v; try done. simpl validate_field. simpl int_validator.
    by rewrite check_bounds_conforms.
  - by destruct v.
  - by destruct v.
  - simpl. destruct v; simpl in *; try done; by rewrite IH.
Qed.

Lemma respects_no_errors (fs : list FieldInfo) (kwargs : Bag) :
  forallb
    (fun f => match dict_get (fname f) kwargs with
              | Some v => conforms (annotation f) v
              | None => true
              end) fs = true ->
  Forall (fun f => is_Some (default f)) fs ->
  (validate_fields fs kwargs).1 = [].
Proof.
  induction fs as [|f fs IH]; simpl; [done|].
  intros [Hf Hfs]%andb_true_iff [Hd Hds]%Forall_cons.
  specialize (IH Hfs Hds).
  destruct (validate_fields fs kwargs) as [errs vals]. simpl in IH. subst errs.
  destruct (dict_get (fname f) kwargs) as [v|].
  - by rewrite conforms_validate.
  - by destruct Hd as [d ->].
Qed.

(** A bag that respects the schema validates; each field takes the value
    given, or its default when the bag has no such key. *)
Lemma respects_validates (cls : ParamsModel) (kwargs : Bag) :
  respects cls kwargs = true ->
  Forall (fun f => is_Some (default f)) (fields cls) ->
  NoDup (field_names cls) ->
  exists m, model_validate cls kwargs = inr m /\
    forall f, f ∈ fields cls ->
      dict_get (fname f) m =
        match dict_get (fname f) kwargs with
        | Some v => Some v
        | None => default f
        end.
Proof.
  intros Hr Hd Hnd. pose proof (respects_no_errors _ _ Hr Hd) as Herrs.
  destruct (validate_fields (fields cls) kwargs) as [errs m] eqn:Hvf.
  simpl in Herrs. subst errs.
  assert (Hm : model_validate cls kwargs = inr m).
  { unfold model_validate. by rewrite Hvf. }
  exists m. split; [done|]. intros f Hin.
  destruct (model_validate_field _ _ _ f Hm Hnd Hin) as (x & Hx & Hout).
  rewrite Hx. unfold field_outcome in Hout.
  unfold respects in Hr. rewrite forallb_forall in Hr.
  specialize (Hr f). rewrite <- list_elem_of_In in Hr. specialize (Hr Hin).
  destruct (dict_get (fname f) kwargs) as [v|]; [|done].
  rewrite conforms_validate in Hout by done. congruence.
Qed.

Lemma TrafficInfoParams_wf :
  Forall (fun f => is_Some (default f)) (fields TrafficInfoParams) /\
  NoDup (field_names TrafficInfoParams).
Proof.
  split.
  - repeat constructor; by eexists.
  - apply (bool_decide_unpack _). by vm_compute.
Qed.

(** C4: a bag for rail-traffic-info whose declared fields all conform to
    their type and bounds validates, and every field the bag omits takes
    its declared default: limit 10, offset 0, timezone UTC, include_links
    and include_app_metas false, the optional strings None. Fields that are
    given keep the value given. *)
Theorem traffic_info_defaults_applied (kwargs : Bag) :
  respects TrafficInfoParams kwargs = true ->
  exists m, model_validate TrafficInfoParams kwargs = inr m /\
    (dict_get "limit" kwargs = None -> dict_get "limit" m = Some (VInt 10)) /\
    (dict_get "offset" kwargs = None -> dict_get "offset" m = Some (VInt 0)) /\
    (dict_get "timezone" kwargs = None ->
       dict_get "timezone" m = Some (VStr "UTC")) /\
    (dict_get "include_links" kwargs = None ->
       dict_get "include_links" m = Some (VBool false)) /\
    (dict_get "include_app_metas" kwargs = None ->
       dict_get "include_app_metas" m = Some (VBool false)) /\
    (forall k,
       k ∈ ["select"; "where"; "group_by"; "order_by"; "refine"; "exclude"; "lang"] ->
       dict_get k kwargs = None -> dict_get k m = Some VNone) /\
    (forall k v,
       k ∈ field_names TrafficInfoParams ->
       dict_get k kwargs = Some v -> dict_get k m = Some v).
Proof.
  intros Hr. destruct TrafficInfoParams_wf as [Hd Hnd].
  destruct (respects_validates _ _ Hr Hd Hnd) as (m & Hm & Hfields).
  exists m. split; [done|].
  assert (Hall : forall f, f ∈ fields TrafficInfoParams ->
            (dict_get (fname f) kwargs = None -> dict_get (fname f) m = default f) /\
            (forall v, dict_get (fname f) kwargs = Some v ->
                       dict_get (fname f) m = Some v)).
  { intros f Hin. rewrite (Hfields f Hin). split; [by intros ->|by intros v ->]. }
  repeat split.
  - apply (Hall (int_field "limit" 10 (Some 1) (Some 100))). in_list.
  - apply (Hall (int_field "offset" 0 (Some 0) None)). in_list.
  - apply (Hall (str_field "timezone" "UTC")). in_list.
  - apply (Hall (bool_field "include_links" false)). in_list.
  - apply (Hall (bool_field "include_app_metas" false)). in_list.
  - intros k Hk. apply (Hall (opt_str k)).
    simpl. repeat (apply elem_of_cons in Hk as [->|Hk]); [in_list..|].
    by apply elem_of_nil in Hk.
  - intros k v Hk. unfold field_names in Hk.
    apply list_elem_of_fmap in Hk as (f & -> & Hin). by apply Hall.
Qed.


(** ** Handlers *)

Create HintDb handlers discriminated.

#[local] Hint Unfold handle_rail_traffic_info handle_railway_lines
  handle_rolling_stock handle_station_users handle_target_actual_compared
  handle_station_furnitures handle_station_services hande_stores_data
  handle_screenerdata : handlers.

Create HintDb endpoints discriminated.

#[local] Hint Unfold ep_rail_traffic_info ep_railway_lines ep_rolling_stock
  ep_station_users ep_target_actual_compared ep_station_furnitures
  ep_station_services ep_stores_data ep_screenerdata : endpoints.

(** What a handler does, in terms of the outcome of its [try] block: a
    failure is logged once and raised again as it is; a response becomes
    one text block. *)
Lemma handler_spec (ep : Endpoint) (arguments : option Bag) (w : World) :
  ep ∈ endpoints ->
  ep_handler ep arguments w =
    match try_body ep arguments w with
    | (w1, inl e) => (append_log (LogError (ep_prefix ep) e) w1, inl e)
    | (w1, inr r) => (w1, inr [TextContent (model_str r)])
    end.
Proof.
  intros Hin. unfold endpoints in Hin.
  repeat (apply elem_of_cons in Hin as [->|Hin]);
    try (by apply elem_of_nil in Hin);
    unfold try_body; autounfold with endpoints;
    cbn [ep_handler ep_operand ep_params ep_fetch ep_prefix];
    autounfold with handlers; unfold try_except, mbind, M_bind;
    (destruct (unpack _ w) as [w1 [e|kw]]; [done|]);
    (destruct (construct _ kw w1) as [w2 [e|p]]; [done|]);
    match goal with |- context [?f p w2] => destruct (f p w2) as [w3 [e|r]] end;
    done.
Qed.

Lemma try_body_fetch (ep : Endpoint) (arguments : option Bag) (kwargs : Bag)
    (params : Model) (w : World) :
  ep_operand ep arguments = VDict kwargs ->
  model_validate (ep_params ep) kwargs = inr params ->
  try_body ep arguments w = ep_fetch ep params w.
Proof.
  intros Hop Hv. unfold try_body, mbind, M_bind, construct, lift.
  rewrite Hop. simpl. by rewrite Hv.
Qed.

Lemma try_body_invalid (ep : Endpoint) (arguments : option Bag) (kwargs : Bag)
    (e : PyExn) (w : World) :
  ep_operand ep arguments = VDict kwargs ->
  model_validate (ep_params ep) kwargs = inl e ->
  try_body ep arguments w = (w, inl e).
Proof.
  intros Hop Hv. unfold try_body, mbind, M_bind, construct, lift.
  rewrite Hop. simpl. by rewrite Hv.
Qed.

(** An error of a declared field is among the errors collected. *)
Lemma field_error_collected (fs : list FieldInfo) (kwargs : Bag) (f : FieldInfo)
    (v : value) (e : ErrorType) :
  f ∈ fs -> dict_get (fname f) kwargs = Some v ->
  validate_field (annotation f) v = inl e ->
  at_field (fname f) e ∈ (validate_fields fs kwargs).1.
Proof.
  intros Hin Hget Hv. induction fs as [|f0 fs IH]; [by apply elem_of_nil in Hin|].
  simpl. destruct (validate_fields fs kwargs) as [errs vals]. simpl in IH.
  apply elem_of_cons in Hin as [<-|Hin].
  - rewrite Hget, Hv. simpl. by left.
  - specialize (IH Hin).
    destruct (dict_get (fname f0) kwargs) as [v0|].
    + destruct (validate_field (annotation f0) v0); simpl; [by right|done].
    + destruct (default f0); simpl; [done|by right].
Qed.

Lemma model_validate_errors (cls : ParamsModel) (kwargs : Bag) (e : ErrorDetails) :
  e ∈ (validate_fields (fields cls) kwargs).1 ->
  model_validate cls kwargs =
    inl (ValidationError (title cls) (validate_fields (fields cls) kwargs).1).
Proof.
  unfold model_validate.
  destruct (validate_fields (fields cls) kwargs) as [[|e0 errs] vals]; simpl; [|done].
  intros Hin. by apply elem_of_nil in Hin.
Qed.

(** C1, as the code has it: whatever failure the [try] block of a handler
    ends in (unpacking, validation or the fetch), the handler logs it once
    at error level and raises the same exception again; it is not replaced
    by a classified kind. *)
Theorem failure_logged_and_reraised (ep : Endpoint) (arguments : option Bag)
    (w : World) (e : PyExn) :
  ep ∈ endpoints ->
  (try_body ep arguments w).2 = inl e ->
  ep_handler ep arguments w =
    (append_log (LogError (ep_prefix ep) e) (try_body ep arguments w).1, inl e).
Proof.
  intros Hin Hfail. rewrite (handler_spec _ _ _ Hin).
  destruct (try_body ep arguments w) as [w1 [e1|r]]; simpl in *; [|done].
  by injection Hfail as ->.
Qed.

(** C2: when the [limit] given to rail-traffic-info is an integer outside
    [1, 100], validation fails with a ValidationError that names [limit]
    and the violated bound; the handler raises that error and issues no
    request. *)
Theorem limit_out_of_range_rejected (kwargs : Bag) (v : value) (n : Z) (w : World) :
  dict_get "limit" kwargs = Some v ->
  int_validator v = inr n ->
  n < 1 \/ 100 < n ->
  exists errs,
    model_validate TrafficInfoParams kwargs =
      inl (ValidationError "TrafficInfoParams" errs) /\
    at_field "limit"
      (if 100 <? n then less_than_equal 100 else greater_than_equal 1) ∈ errs /\
    (handle_rail_traffic_info (Some kwargs) w).2 =
      inl (ValidationError "TrafficInfoParams" errs) /\
    requests (handle_rail_traffic_info (Some kwargs) w).1 = requests w.
Proof.
  intros Hget Hint Hout.
  set (e := if 100 <? n then less_than_equal 100 else greater_than_equal 1).
  assert (Hv : validate_field (TInt (Some 1) (Some 100)) v = inl e).
  { simpl. rewrite Hint. unfold check_bounds, e.
    destruct (100 <? n) eqn:Hhi; [done|].
    destruct (n <? 1) eqn:Hlo; [done|]. lia. }
  pose proof (field_error_collected (fields TrafficInfoParams) kwargs
                (int_field "limit" 10 (Some 1) (Some 100)) v e
                ltac:(in_list) Hget Hv) as Hin.
  pose proof (model_validate_errors TrafficInfoParams kwargs _ Hin) as Hmv.
  exists (validate_fields (fields TrafficInfoParams) kwargs).1.
  split; [done|]. split; [done|].
  pose proof (handler_spec ep_rail_traffic_info (Some kwargs) w ltac:(in_list)) as Hs.
  rewrite (try_body_invalid ep_rail_traffic_info (Some kwargs) kwargs _ w eq_refl Hmv) in Hs.
  change (ep_handler ep_rail_traffic_info) with handle_rail_traffic_info in Hs.
  by rewrite Hs.
Qed.

(** C3: when the fetch of a registered tool returns a response, the handler
    returns exactly one content block, a text block whose text is the
    string form of that response, and changes nothing else. *)
Theorem success_is_one_text_block (ep : Endpoint) (arguments : option Bag)
    (kwargs : Bag) (params : Model) (r : Response) (w : World) :
  ep ∈ endpoints ->
  ep_operand ep arguments = VDict kwargs ->
  model_validate (ep_params ep) kwargs = inr params ->
  (ep_fetch ep params w).2 = inr r ->
  ep_handler ep arguments w =
    ((ep_fetch ep params w).1, inr [TextContent (model_str r)]).
Proof.
  intros Hin Hop Hv Hfetch. rewrite (handler_spec _ _ _ Hin).
  rewrite (try_body_fetch _ _ _ _ _ Hop Hv).
  destruct (ep_fetch ep params w) as [w1 [e|r1]]; simpl in *; [done|].
  by injection Hfetch as ->.
Qed.

(** C9: given [None], the first three handlers of ch_sbb fail while
    unpacking, before any validation or request: the TypeError is logged
    and raised, and nothing else changes. The other six handlers take
    [None] for the empty bag: they behave as on the empty dict, which
    validates to the declared defaults, and what they do and return is what
    follows from calling their fetch function on the instance that holds
    these defaults: its failure logged and raised, or its response as one
    text block. *)
Theorem none_arguments :
  Forall
    (fun ep => forall w,
       ep_handler ep None w =
         (append_log (LogError (ep_prefix ep) unpack_error) w, inl unpack_error))
    [ep_rail_traffic_info; ep_railway_lines; ep_rolling_stock] /\
  Forall
    (fun ep => forall w,
       ep_handler ep None w = ep_handler ep (Some []) w /\
       model_validate (ep_params ep) [] = inr (default_model (ep_params ep)) /\
       try_body ep None w = ep_fetch ep (default_model (ep_params ep)) w /\
       ep_handler ep None w =
         match ep_fetch ep (default_model (ep_params ep)) w with
         | (w1, inl e) => (append_log (LogError (ep_prefix ep) e) w1, inl e)
         | (w1, inr r) => (w1, inr [TextContent (model_str r)])
         end)
    [ep_station_users; ep_target_actual_compared; ep_station_furnitures;
     ep_station_services; ep_stores_data; ep_screenerdata].
Proof.
  split.
  - repeat apply Forall_cons_2; try apply Forall_nil_2; intros w;
      rewrite handler_spec by in_list; reflexivity.
  - repeat apply Forall_cons_2; try apply Forall_nil_2; intros w;
      (split; [reflexivity|split; [reflexivity|split;
         [ by apply (try_body_fetch _ None [])
         | rewrite handler_spec by in_list;
           erewrite try_body_fetch; reflexivity ]]]).
Qed.

(** ** Registration *)

Lemma registry_inv_empty : registry_inv empty_registry.
Proof. split; [constructor|]. simpl. by rewrite dom_empty_L. Qed.

(** Appending a tool under a fresh name and storing its handler under the
    same name keeps the invariant. *)
Lemma registry_inv_step (t : Tool) (key : string) (h : Handler) (r : Registry) :
  registry_inv r -> key = name t -> name t ∉ tool_names r ->
  registry_inv (TOOLS_HANDLERS_set key h (TOOLS_append t r)).
Proof.
  intros [Hnd Hdom] -> Hfresh. unfold registry_inv, tool_names in *. simpl.
  rewrite fmap_app. simpl. split.
  - apply NoDup_app. split; [done|]. split; [|apply NoDup_singleton].
    intros x Hx ->%list_elem_of_singleton. done.
  - rewrite dom_insert_L, Hdom, list_to_set_app_L. simpl.
    rewrite (right_id_L ∅ (∪)). apply (comm_L (∪)).
Qed.

(** C6: once the module-level statements of ch_sbb and of glob_screeners
    have run, the names in TOOLS are pairwise distinct and the keys of
    TOOLS_HANDLERS are exactly these names. *)
Theorem registration_invariant :
  registry_inv ch_sbb /\ registry_inv glob_screeners.
Proof.
  split; unfold ch_sbb, glob_screeners; cbv zeta;
    repeat (apply registry_inv_step;
            [ | reflexivity | apply (bool_decide_unpack _); by vm_compute ]);
    apply registry_inv_empty.
Qed.

(** ** Fetch functions *)

(** The body shared by the fetch functions of ch_sbb: exactly one request is
    issued, to [endpoint], with the dumped query. *)
Lemma sbb_fetch_requests (endpoint : string) (query : Bag) (cls : ResponseModel)
    (w : World) :
  requests
    ((response ← httpx_get endpoint query;
      raise_for_status response;;
      payload ← response_json response;
      kwargs ← unpack payload;
      construct_response cls kwargs) w).1
  = requests w ++ [ {| url := endpoint; params := query |} ].
Proof.
  unfold mbind, M_bind, httpx_get.
  destruct (httpx_reply w _) as [e|resp]; [done|].
  unfold raise_for_status. destruct (is_success resp); [|done].
  unfold response_json. destruct (json_body resp) as [v|]; [|done].
  simpl. by destruct v.
Qed.

(** ... and when the reply is a success carrying JSON, the outcome is that
    of validating the payload. *)
Lemma sbb_fetch_outcome (endpoint : string) (query : Bag) (cls : ResponseModel)
    (w : World) (resp : HttpResponse) (v : value) :
  httpx_reply w {| url := endpoint; params := query |} = inr resp ->
  is_success resp = true ->
  json_body resp = Some v ->
  ((response ← httpx_get endpoint query;
    raise_for_status response;;
    payload ← response_json response;
    kwargs ← unpack payload;
    construct_response cls kwargs) w).2
  = match v with
    | VDict payload => response_validate cls payload
    | _ => inl unpack_error
    end.
Proof.
  intros Hreply Hok Hjson. unfold mbind, M_bind, httpx_get. rewrite Hreply.
  unfold raise_for_status. rewrite Hok. unfold response_json. rewrite Hjson.
  simpl. by destruct v.
Qed.

Lemma validate_items_inr (m : ResultModel) (field : string) (i : nat)
    (l : list value) (its : list Item) :
  validate_items m field i l = inr its ->
  Forall (fun x => exists it, item_validate m x = inr it) l.
Proof.
  revert i its. induction l as [|v l IH]; intros i its Hv; [constructor|].
  simpl in Hv. destruct (item_validate m v) as [es|it] eqn:Hit.
  - by destruct (validate_items m field (S i) l).
  - destruct (validate_items m field (S i) l) as [errs|its'] eqn:Hrest; [done|].
    constructor; [by eexists|by eapply IH].
Qed.

Lemma validate_items_fits (m : ResultModel) (field : string) (i : nat)
    (l : list value) :
  Forall (fun x => exists it, item_validate m x = inr it) l ->
  exists its, validate_items m field i l = inr its.
Proof.
  intros Hall. revert i. induction Hall as [|v l [it Hit] _ IH]; intros i.
  - by exists [].
  - destruct (IH (S i)) as [its Hits]. exists (it :: its).
    simpl. by rewrite Hit, Hits.
Qed.

(** Validation of a response accepts exactly the objects that fit. *)
Lemma response_validate_fits (cls : ResponseModel) (payload : Bag) :
  (exists r, response_validate cls payload = inr r) <-> fits cls payload.
Proof.
  unfold response_validate, validate_count, validate_list, fits. split.
  - intros [r Hr].
    destruct (dict_get (count_field cls) payload) as [vc|]; [|by repeat case_match].
    destruct (int_validator vc) as [e|n] eqn:Hn; [by repeat case_match|].
    split; [by exists vc, n|].
    destruct (dict_get (list_field cls) payload) as [vl|]; [|done].
    destruct vl as [| | | | |l|]; try done.
    exists l. split; [done|].
    destruct (validate_items _ _ 0 l) as [errs|its] eqn:Hits; [done|].
    by eapply validate_items_inr.
  - intros [(vc & n & -> & ->) (l & -> & Hall)].
    destruct (validate_items_fits _ (list_field cls) 0%nat _ Hall) as [its ->].
    by eexists.
Qed.

(** The errors reported for a JSON object that lacks a required field. *)
Lemma response_validate_missing (cls : ResponseModel) (payload : Bag) (e : PyExn) :
  response_validate cls payload = inl e ->
  exists errs, e = ValidationError (rtitle cls) errs /\
    (dict_get (count_field cls) payload = None ->
       at_field (count_field cls) missing ∈ errs) /\
    (dict_get (list_field cls) payload = None ->
       at_field (list_field cls) missing ∈ errs).
Proof.
  unfold response_validate, validate_count, validate_list.
  destruct (dict_get (count_field cls) payload) as [vc|];
    destruct (dict_get (list_field cls) payload) as [vl|];
    repeat case_match; intros [= <-]; simplify_eq; eexists;
    (split; [reflexivity|]); split; intros; try done; in_list;
    apply elem_of_app; (left + right); in_list.
Qed.

(** C7, as the code has it: when the upstream answers rail-traffic-info with
    a success status and a JSON payload that does not fit TrafficInfoResponse,
    [fetch_rail_traffic_info] returns no value: it raises pydantic's
    ValidationError, which reports [missing] for each of total_count and
    results that the object lacks, or, when the payload is not an object,
    the TypeError of the unpacking. *)
Theorem malformed_payload_raises (params : Model) (w : World)
    (resp : HttpResponse) (v : value) :
  httpx_reply w (rail_traffic_request params) = inr resp ->
  is_success resp = true ->
  json_body resp = Some v ->
  ~ fits_value TrafficInfoResponse v ->
  exists e, (fetch_rail_traffic_info params w).2 = inl e /\
    match v with
    | VDict payload =>
        exists errs, e = ValidationError "TrafficInfoResponse" errs /\
          (dict_get "total_count" payload = None ->
             at_field "total_count" missing ∈ errs) /\
          (dict_get "results" payload = None ->
             at_field "results" missing ∈ errs)
    | _ => e = unpack_error
    end.
Proof.
  intros Hreply Hok Hjson Hfit. unfold fetch_rail_traffic_info. cbv zeta.
  rewrite (sbb_fetch_outcome _ _ _ _ resp v Hreply Hok Hjson).
  destruct v as [| | | | | |payload]; try by eexists.
  destruct (response_validate TrafficInfoResponse payload) as [e|r] eqn:Hv.
  - exists e. split; [done|].
    by apply (response_validate_missing TrafficInfoResponse).
  - exfalso. apply Hfit. exists payload. split; [done|].
    apply response_validate_fits. by exists r.
Qed.

(** C8: [fetch_screener_data] does not depend on its argument: the global
    screener is given the predefined body named by the default of a fresh
    FincanceScreenerParams, day_gainers, and that is the body upstream is
    queried with. *)
Theorem screener_filter_is_fixed (p1 p2 : Model) (w : World) :
  fetch_screener_data p1 w = fetch_screener_data p2 w /\
  model_validate FincanceScreenerParams [] =
    inr [("screenerOptions", VStr "day_gainers")] /\
  screener_body (fetch_screener_data p1 w).1 = Some "day_gainers" /\
  screener_queries (fetch_screener_data p1 w).1 =
    screener_queries w ++ [Some "day_gainers"].
Proof.
  split; [reflexivity|]. split; [reflexivity|].
  unfold fetch_screener_data, mbind, M_bind, construct, lift, screener_response.
  simpl. destruct (screener_reply w (Some "day_gainers")) as [e|v]; [done|].
  by destruct v.
Qed.

Lemma station_fields_NoDup : NoDup (map fname station_fields).
Proof. apply (bool_decide_unpack _). by vm_compute. Qed.

Lemma validated_limit (kwargs : Bag) (x : value) :
  field_outcome kwargs (int_field "limit" 10 (Some 1) (Some 100)) x ->
  exists n, x = VInt n /\ 1 <= n <= 100.
Proof.
  unfold field_outcome. simpl.
  destruct (dict_get "limit" kwargs) as [v|].
  - destruct (int_validator v) as [e|n]; [done|].
    unfold check_bounds. destruct (100 <? n) eqn:Hhi; [done|].
    destruct (n <? 1) eqn:Hlo; [done|].
    intros [= <-]. exists n. split; [done|lia].
  - intros [= <-]. exists 10. split; [done|lia].
Qed.

(** C10: for the five station tools, whatever the validated arguments are,
    the request goes to a URL that ends in the fixed text ?limit=100, and
    the validated limit, between 1 and 100, is sent as well, among the
    query parameters. *)
Theorem fixed_limit_in_url (ep : Endpoint) (kwargs : Bag) (params : Model)
    (w : World) :
  ep ∈ [ep_station_users; ep_target_actual_compared; ep_station_furnitures;
        ep_station_services; ep_stores_data] ->
  model_validate (ep_params ep) kwargs = inr params ->
  exists path n,
    requests (ep_fetch ep params w).1 =
      requests w ++ [ {| url := BASE_URL +:+ path +:+ "?limit=100";
                         params := model_dump_exclude_none params |} ] /\
    dict_get "limit" params = Some (VInt n) /\
    1 <= n <= 100 /\
    dict_get "limit" (model_dump_exclude_none params) = Some (VInt n).
Proof.
  intros Hin Hv.
  assert (Hlimit : exists n, dict_get "limit" params = Some (VInt n) /\ 1 <= n <= 100).
  { assert (Hfs : fields (ep_params ep) = station_fields).
    { repeat (apply elem_of_cons in Hin as [->|Hin]); try done.
      by apply elem_of_nil in Hin. }
    destruct (model_validate_field (ep_params ep) kwargs params
                (int_field "limit" 10 (Some 1) (Some 100)) Hv) as (x & Hx & Hout).
    - unfold field_names. rewrite Hfs. apply station_fields_NoDup.
    - rewrite Hfs. in_list.
    - destruct (validated_limit _ _ Hout) as (n & -> & Hn). by exists n. }
  destruct Hlimit as (n & Hget & Hn).
  assert (Hreq : exists path,
            requests (ep_fetch ep params w).1 =
              requests w ++ [ {| url := BASE_URL +:+ path +:+ "?limit=100";
                                 params := model_dump_exclude_none params |} ]).
  { repeat (apply elem_of_cons in Hin as [->|Hin]);
      try (by apply elem_of_nil in Hin);
      cbn [ep_fetch ep_station_users ep_target_actual_compared
           ep_station_furnitures ep_station_services ep_stores_data];
      [ exists "/catalog/datasets/anzahl-sbb-bahnhofbenutzer/records"
      | exists "/catalog/datasets/ist-daten-sbb/records"
      | exists "/catalog/datasets/mobiliar-im-bahnhof/records"
      | exists "/catalog/datasets/haltestelle-offnungszeiten/records"
      | exists "/catalog/datasets/offnungszeiten-shops/records" ];
      apply sbb_fetch_requests. }
  destruct Hreq as [path Hreq]. exists path, n.
  repeat split; try done; try lia.
  by apply dict_get_dump.
Qed.

End Properties.

(** * Further properties of the two modules *)

Lemma dict_get_set_eq (k : string) (v : value) (d : Bag) :
  dict_get k (dict_set k v d) = Some v.
Proof.
  induction d as [|[k0 v0] d IH]; simpl.
  - by rewrite String.eqb_refl.
  - destruct (String.eqb_spec k k0) as [->|Hne]; simpl.
    + by rewrite String.eqb_refl.
    + destruct (String.eqb_spec k k0); [done|apply IH].
Qed.

Lemma fname_inj (fs : list FieldInfo) (f g : FieldInfo) :
  NoDup (map fname fs) -> f ∈ fs -> g ∈ fs -> fname f = fname g -> f = g.
Proof.
  induction fs as [|f0 fs IH]; intros Hnd Hf Hg Heq.
  - by apply elem_of_nil in Hf.
  - simpl in Hnd. apply NoDup_cons in Hnd as [Hnotin Hnd].
    apply elem_of_cons in Hf as [->|Hf]; apply elem_of_cons in Hg as [->|Hg].
    + done.
    + exfalso. apply Hnotin. rewrite Heq. by apply list_elem_of_fmap_2.
    + exfalso. apply Hnotin. rewrite <- Heq. by apply list_elem_of_fmap_2.
    + by apply IH.
Qed.

Section Further.
Context {ext : Externals}.

(** ** Argument validation, field by field *)

Lemma validate_fields_errors (fs : list FieldInfo) (kwargs : Bag) (e : ErrorDetails) :
  e ∈ (validate_fields fs kwargs).1 <->
  exists f, f ∈ fs /\ field_error kwargs f e.
Proof.
  induction fs as [|f fs IH]; simpl.
  - split; [by intros ?%elem_of_nil|by intros (f & ?%elem_of_nil & _)].
  - destruct (validate_fields fs kwargs) as [errs vals]. simpl in IH.
    unfold field_error in *.
    destruct (dict_get (fname f) kwargs) as [v|] eqn:Hget.
    + destruct (validate_field (annotation f) v) as [t|x] eqn:Hv; simpl.
      * rewrite elem_of_cons, IH. split.
        -- intros [->|(g & Hg & Herr)].
           ++ exists f. split; [by left|]. left. exists v, t. by rewrite Hget.
           ++ exists g. split; [by right|done].
        -- intros (g & [->|Hg]%elem_of_cons & Herr).
           ++ left. destruct Herr as [(v' & t' & Hg' & Hv' & ->)|(Hg' & _)];
                [|congruence].
              rewrite Hget in Hg'. injection Hg' as <-. congruence.
           ++ right. by exists g.
      * rewrite IH. split.
        -- intros (g & Hg & Herr). exists g. split; [by right|done].
        -- intros (g & [->|Hg]%elem_of_cons & Herr); [|by exists g].
           destruct Herr as [(v' & t' & Hg' & Hv' & _)|(Hg' & _)]; [|congruence].
           rewrite Hget in Hg'. injection Hg' as <-. congruence.
    + destruct (default f) as [d|] eqn:Hd; simpl.
      * rewrite IH. split.
        -- intros (g & Hg & Herr). exists g. split; [by right|done].
        -- intros (g & [->|Hg]%elem_of_cons & Herr); [|by exists g].
           destruct Herr as [(v' & t' & Hg' & _)|(_ & Hd' & _)]; congruence.
      * rewrite elem_of_cons, IH. split.
        -- intros [->|(g & Hg & Herr)].
           ++ exists f. split; [by left|]. by right.
           ++ exists g. split; [by right|done].
        -- intros (g & [->|Hg]%elem_of_cons & Herr).
           ++ left. destruct Herr as [(v' & t' & Hg' & _)|(_ & _ & ->)];
                [congruence|done].
           ++ right. by exists g.
Qed.

Lemma model_validate_cases (cls : ParamsModel) (kwargs : Bag) :
  match model_validate cls kwargs with
  | inr m => validate_fields (fields cls) kwargs = ([], m)
  | inl exn =>
      exn = ValidationError (title cls) (validate_fields (fields cls) kwargs).1 /\
      (validate_fields (fields cls) kwargs).1 <> []
  end.
Proof.
  unfold model_validate.
  by destruct (validate_fields (fields cls) kwargs) as [[|e errs] vals].
Qed.

(** X1: validation of an argument bag succeeds exactly when every declared
    field is acceptable on its own: a field that is given must validate, a
    field that is not given must have a default. There are no constraints
    across fields. *)
Theorem validation_succeeds_iff (cls : ParamsModel) (kwargs : Bag) :
  (exists m, model_validate cls kwargs = inr m) <->
  (forall f, f ∈ fields cls ->
     match dict_get (fname f) kwargs with
     | Some v => exists x, validate_field (annotation f) v = inr x
     | None => default f <> None
     end).
Proof.
  pose proof (model_validate_cases cls kwargs) as Hc.
  pose proof (validate_fields_errors (fields cls) kwargs) as He.
  split.
  - intros [m Hm] f Hf. rewrite Hm in Hc. rewrite Hc in He. simpl in He.
    destruct (dict_get (fname f) kwargs) as [v|] eqn:Hget.
    + destruct (validate_field (annotation f) v) as [t|x] eqn:Hv; [|by exists x].
      exfalso. eapply elem_of_nil, He. exists f. split; [done|].
      left. exists v, t. done.
    + intros Hd. eapply elem_of_nil, He. exists f. split; [done|]. by right.
  - intros Hall. destruct (model_validate cls kwargs) as [exn|m]; [|by exists m].
    exfalso. destruct Hc as [_ Hne].
    destruct (validate_fields (fields cls) kwargs).1 as [|e errs] eqn:Herrs; [done|].
    destruct (proj1 (He e) ltac:(by left)) as (f & Hf & Herr).
    specialize (Hall f Hf).
    destruct Herr as [(v & t & Hget & Hv & _)|(Hget & Hd & _)]; rewrite Hget in Hall.
    + destruct Hall as [x Hx]. congruence.
    + done.
Qed.

(** X2: when validation fails, the ValidationError carries the title of
    the model and a non-empty list of errors; an error is in the list
    exactly when it is the error of a declared field whose given value does
    not validate, or of a required field that is not given. *)
Theorem validation_errors_exact (cls : ParamsModel) (kwargs : Bag) (exn : PyExn) :
  model_validate cls kwargs = inl exn ->
  exists errs, exn = ValidationError (title cls) errs /\ errs <> [] /\
    forall e, e ∈ errs <-> exists f, f ∈ fields cls /\ field_error kwargs f e.
Proof.
  intros Hm. pose proof (model_validate_cases cls kwargs) as Hc.
  rewrite Hm in Hc. destruct Hc as [-> Hne].
  eexists. split; [done|]. split; [done|].
  apply validate_fields_errors.
Qed.

Lemma validate_fields_none (fs : list FieldInfo) (kwargs : Bag) (name : string) :
  (forall g, g ∈ fs -> fname g = name ->
     is_optional (annotation g) = true /\ default g = Some VNone) ->
  validate_fields fs (dict_set name VNone kwargs) =
  validate_fields fs (dict_del name kwargs).
Proof.
  induction fs as [|g fs IH]; intros Hopt; [done|].
  simpl. rewrite IH by (intros g' Hg' Heq'; apply Hopt; [by right|done]).
  destruct (decide (fname g = name)) as [Heq|Hne].
  - destruct (Hopt g ltac:(by left) Heq) as [Ho Hd].
    rewrite Heq, dict_get_set_eq, dict_get_del_eq, Hd.
    destruct (annotation g); try done.
  - rewrite dict_get_set_ne, dict_get_del_ne by done. done.
Qed.

(** X3: for an optional field that defaults to None, giving None is the
    same as not giving the field. *)
Theorem explicit_none_is_omission (cls : ParamsModel) (kwargs : Bag) (f : FieldInfo) :
  f ∈ fields cls ->
  NoDup (field_names cls) ->
  is_optional (annotation f) = true ->
  default f = Some VNone ->
  model_validate cls (dict_set (fname f) VNone kwargs) =
  model_validate cls (dict_del (fname f) kwargs).
Proof.
  intros Hf Hnd Ho Hd. unfold model_validate.
  rewrite (validate_fields_none _ _ (fname f)); [done|].
  intros g Hg Heq. by rewrite (fname_inj _ g f Hnd Hg Hf Heq).
Qed.

(** X4: for a field that is not optional, None is not replaced by the
    default: validation fails with a type error at that field. *)
Theorem explicit_none_rejected (cls : ParamsModel) (kwargs : Bag) (f : FieldInfo) :
  f ∈ fields cls ->
  is_optional (annotation f) = false ->
  dict_get (fname f) kwargs = Some VNone ->
  exists errs t,
    model_validate cls kwargs = inl (ValidationError (title cls) errs) /\
    at_field (fname f) t ∈ errs /\
    t ∈ [int_type; string_type; bool_type].
Proof.
  intros Hf Ho Hget.
  assert (Hv : exists t, validate_field (annotation f) VNone = inl t /\
                         t ∈ [int_type; string_type; bool_type]).
  { destruct (annotation f); try done; eexists; (split; [reflexivity|in_list]). }
  destruct Hv as (t & Hv & Ht).
  pose proof (field_error_collected _ _ _ _ _ Hf Hget Hv) as Hin.
  exists (validate_fields (fields cls) kwargs).1, t.
  split; [by eapply model_validate_errors|done].
Qed.

(** ** Handlers and the argument bag *)

Lemma operand_some (ep : Endpoint) (d : Bag) :
  ep ∈ endpoints -> ep_operand ep (Some d) = VDict d.
Proof.
  intros Hin. unfold endpoints in Hin.
  repeat (apply elem_of_cons in Hin as [->|Hin]);
    try (by apply elem_of_nil in Hin); try done; by destruct d.
Qed.

(** X5: for every handler, a bag that does not validate is never fetched
    for: the ValidationError is logged and raised, and the world is
    otherwise untouched (no request, no screener query). *)
Theorem invalid_arguments_no_fetch (ep : Endpoint) (d : Bag) (e : PyExn) (w : World) :
  ep ∈ endpoints ->
  model_validate (ep_params ep) d = inl e ->
  ep_handler ep (Some d) w = (append_log (LogError (ep_prefix ep) e) w, inl e).
Proof.
  intros Hin Hv. rewrite (handler_spec _ _ _ Hin).
  by rewrite (try_body_invalid ep (Some d) d e w (operand_some _ _ Hin) Hv).
Qed.

(** X6: a handler reads the bag only at the names its argument model
    declares: two bags that agree on these names give the same outcome and
    the same effects, whatever other keys they hold and in whatever order. *)
Theorem handler_reads_declared_fields_only (ep : Endpoint) (d1 d2 : Bag) (w : World) :
  ep ∈ endpoints ->
  (forall k, k ∈ field_names (ep_params ep) -> dict_get k d1 = dict_get k d2) ->
  ep_handler ep (Some d1) w = ep_handler ep (Some d2) w.
Proof.
  intros Hin Hagree. rewrite !(handler_spec _ _ _ Hin).
  assert (Hv : model_validate (ep_params ep) d1 = model_validate (ep_params ep) d2).
  { unfold model_validate. rewrite (validate_fields_ext _ d1 d2); [done|].
    intros f Hf. apply Hagree. by apply list_elem_of_fmap_2. }
  assert (Hb : try_body ep (Some d1) w = try_body ep (Some d2) w).
  { unfold try_body, mbind, M_bind, construct, lift.
    rewrite !(operand_some _ _ Hin). simpl. by rewrite Hv. }
  by rewrite Hb.
Qed.

End Further.

(** Membership of an element yet to be chosen: tries the positions in turn. *)
Ltac in_list_any :=
  apply list_elem_of_here + (apply list_elem_of_further; in_list_any).

Section Fetching.
Context {ext : Externals}.

(** ** The fetch functions of ch_sbb *)

Lemma route_fetch_eq (rt : SbbRoute) (p : Model) :
  rt ∈ sbb_routes ->
  ep_fetch (route_ep rt) p = sbb_fetch (route_url rt) (route_response rt) p.
Proof.
  intros Hin. unfold sbb_routes in Hin.
  repeat (apply elem_of_cons in Hin as [->|Hin]); try reflexivity.
  by apply elem_of_nil in Hin.
Qed.

Lemma route_ep_in (rt : SbbRoute) : rt ∈ sbb_routes -> route_ep rt ∈ endpoints.
Proof.
  intros Hin. unfold sbb_routes in Hin.
  repeat (apply elem_of_cons in Hin as [->|Hin]); try in_list.
  by apply elem_of_nil in Hin.
Qed.

Lemma endpoints_split (ep : Endpoint) :
  ep ∈ endpoints ->
  (exists rt, rt ∈ sbb_routes /\ ep = route_ep rt) \/ ep = ep_screenerdata.
Proof.
  intros Hin. unfold endpoints in Hin.
  repeat (apply elem_of_cons in Hin as [->|Hin]);
    try (by apply elem_of_nil in Hin); try (by right);
    left; eexists; unfold sbb_routes; (split; [in_list_any|reflexivity]).
Qed.

Lemma sbb_fetch_world (endpoint : string) (cls : ResponseModel) (p : Model) (w : World) :
  (sbb_fetch endpoint cls p w).1 =
  record_request {| url := endpoint; params := model_dump_exclude_none p |} w.
Proof.
  unfold sbb_fetch, mbind, M_bind, httpx_get.
  destruct (httpx_reply w _) as [e|resp]; [done|].
  unfold raise_for_status. destruct (is_success resp); [|done].
  unfold response_json. destruct (json_body resp) as [v|]; [|done].
  simpl. by destruct v.
Qed.

Lemma sbb_fetch_result (endpoint : string) (cls : ResponseModel) (p : Model) (w : World) :
  (sbb_fetch endpoint cls p w).2 =
  match httpx_reply w {| url := endpoint; params := model_dump_exclude_none p |} with
  | inl e => inl e
  | inr resp =>
      if is_success resp then
        match json_body resp with
        | None => inl JSONDecodeError
        | Some (VDict d) => response_validate cls d
        | Some _ => inl unpack_error
        end
      else inl (HTTPStatusError (status_code resp))
  end.
Proof.
  unfold sbb_fetch, mbind, M_bind, httpx_get.
  destruct (httpx_reply w _) as [e|resp]; [done|].
  unfold raise_for_status. destruct (is_success resp); [|done].
  unfold response_json. destruct (json_body resp) as [v|]; [|done].
  simpl. by destruct v.
Qed.

Lemma sbb_fetch_effect_aux (rt : SbbRoute) (p : Model) (w : World) :
  rt ∈ sbb_routes ->
  (ep_fetch (route_ep rt) p w).1 = record_request (route_request rt p) w.
Proof.
  intros Hin. rewrite (route_fetch_eq _ _ Hin). apply sbb_fetch_world.
Qed.

(** X7: whatever the upstream answers and however the call ends, a fetch
    function of ch_sbb changes the world in one way only: it issues exactly
    one request, to the URL of its route, with the dumped arguments. The
    log and the screener are not touched. *)
Theorem sbb_fetch_effect (rt : SbbRoute) (p : Model) (w : World) :
  rt ∈ sbb_routes ->
  (ep_fetch (route_ep rt) p w).1 = record_request (route_request rt p) w.
Proof.
  intros Hin. rewrite (route_fetch_eq _ _ Hin). apply sbb_fetch_world.
Qed.

Lemma not_success (resp : HttpResponse) :
  status_code resp < 200 \/ 299 < status_code resp -> is_success resp = false.
Proof. unfold is_success. intros Hs. apply andb_false_iff. lia. Qed.

(** X8: for every tool of ch_sbb, when the arguments validate and the
    upstream answers with a status outside 200..299, the handler logs and
    raises HTTPStatusError with that status; the body of the reply is never
    looked at, so a well-formed payload is discarded too. *)
Theorem non_success_status_is_raised (rt : SbbRoute) (arguments : option Bag)
    (kwargs : Bag) (p : Model) (w : World) (resp : HttpResponse) :
  rt ∈ sbb_routes ->
  ep_operand (route_ep rt) arguments = VDict kwargs ->
  model_validate (ep_params (route_ep rt)) kwargs = inr p ->
  httpx_reply w (route_request rt p) = inr resp ->
  status_code resp < 200 \/ 299 < status_code resp ->
  ep_handler (route_ep rt) arguments w =
    (append_log
       (LogError (ep_prefix (route_ep rt)) (HTTPStatusError (status_code resp)))
       (record_request (route_request rt p) w),
     inl (HTTPStatusError (status_code resp))).
Proof.
  intros Hin Hop Hv Hreply Hs.
  rewrite (handler_spec _ _ _ (route_ep_in _ Hin)).
  rewrite (try_body_fetch _ _ _ _ _ Hop Hv), (route_fetch_eq _ _ Hin).
  pose proof (sbb_fetch_world (route_url rt) (route_response rt) p w) as Hw.
  pose proof (sbb_fetch_result (route_url rt) (route_response rt) p w) as Hr.
  unfold route_request in Hreply. rewrite Hreply, (not_success _ Hs) in Hr.
  destruct (sbb_fetch _ _ p w) as [w1 res]. simpl in *. by subst.
Qed.

(** X9: for every tool of ch_sbb, when the arguments validate and the
    request itself fails, the handler logs and raises the failure of the
    transport as it is. *)
Theorem transport_failure_is_raised (rt : SbbRoute) (arguments : option Bag)
    (kwargs : Bag) (p : Model) (w : World) (e : PyExn) :
  rt ∈ sbb_routes ->
  ep_operand (route_ep rt) arguments = VDict kwargs ->
  model_validate (ep_params (route_ep rt)) kwargs = inr p ->
  httpx_reply w (route_request rt p) = inl e ->
  ep_handler (route_ep rt) arguments w =
    (append_log (LogError (ep_prefix (route_ep rt)) e)
       (record_request (route_request rt p) w),
     inl e).
Proof.
  intros Hin Hop Hv Hreply.
  rewrite (handler_spec _ _ _ (route_ep_in _ Hin)).
  rewrite (try_body_fetch _ _ _ _ _ Hop Hv), (route_fetch_eq _ _ Hin).
  pose proof (sbb_fetch_world (route_url rt) (route_response rt) p w) as Hw.
  pose proof (sbb_fetch_result (route_url rt) (route_response rt) p w) as Hr.
  unfold route_request in Hreply. rewrite Hreply in Hr.
  destruct (sbb_fetch _ _ p w) as [w1 res]. simpl in *. by subst.
Qed.

(** ** Validation of a response *)

Lemma validate_items_Forall2 (m : ResultModel) (field : string) (i : nat)
    (l : list value) (its : list Item) :
  validate_items m field i l = inr its <->
  Forall2 (fun x it => item_validate m x = inr it) l its.
Proof.
  revert i its. induction l as [|v l IH]; intros i its; simpl.
  - split; [intros [= <-]; constructor|by intros ->%Forall2_nil_inv_l].
  - split.
    + destruct (item_validate m v) as [es|it] eqn:Hit.
      * by destruct (validate_items m field (S i) l).
      * destruct (validate_items m field (S i) l) as [errs|its'] eqn:Hrest; [done|].
        intros [= <-]. constructor; [done|]. by apply (IH (S i)).
    + intros (it & its' & Hit & Hrest & ->)%Forall2_cons_inv_l.
      rewrite Hit. apply (IH (S i)) in Hrest. by rewrite Hrest.
Qed.

Lemma response_validate_sound (cls : ResponseModel) (payload : Bag) (r : Response) :
  response_validate cls payload = inr r -> validated_from cls payload r.
Proof.
  unfold response_validate, validate_count, validate_list, validated_from.
  destruct (dict_get (count_field cls) payload) as [vc|]; [|by repeat case_match].
  destruct (int_validator vc) as [e|n] eqn:Hn; [by repeat case_match|].
  destruct (dict_get (list_field cls) payload) as [vl|]; [|done].
  destruct vl as [| | | | |l|]; try done.
  destruct (validate_items _ _ 0%nat l) as [errs|its] eqn:Hits; [done|].
  intros [= <-]. simpl. split; [done|]. split; [by exists vc|].
  exists l. split; [done|]. by eapply validate_items_Forall2.
Qed.

Lemma response_validate_complete (cls : ResponseModel) (payload : Bag) (r : Response) :
  validated_from cls payload r -> response_validate cls payload = inr r.
Proof.
  unfold response_validate, validate_count, validate_list, validated_from.
  intros (Hcls & (vc & -> & ->) & (l & -> & Hall)).
  apply (validate_items_Forall2 _ (list_field cls) 0%nat) in Hall. rewrite Hall.
  destruct r as [c n its]. simpl in *. by subst.
Qed.

(** X10: a fetch function of ch_sbb returns a response exactly when the
    upstream replies with a 2xx status and a JSON object from which that
    response validates; every other reply makes it raise. *)
Theorem sbb_fetch_succeeds_iff (rt : SbbRoute) (p : Model) (w : World) (r : Response) :
  rt ∈ sbb_routes ->
  (ep_fetch (route_ep rt) p w).2 = inr r <->
  exists resp payload,
    httpx_reply w (route_request rt p) = inr resp /\
    is_success resp = true /\
    json_body resp = Some (VDict payload) /\
    validated_from (route_response rt) payload r.
Proof.
  intros Hin. rewrite (route_fetch_eq _ _ Hin), sbb_fetch_result.
  unfold route_request. split.
  - destruct (httpx_reply w _) as [e|resp]; [done|].
    destruct (is_success resp) eqn:Hok; [|done].
    destruct (json_body resp) as [v|] eqn:Hjson; [|done].
    destruct v; try done. intros Hv.
    exists resp, d. split; [done|]. split; [done|]. split; [done|].
    by apply response_validate_sound.
  - intros (resp & payload & -> & -> & -> & Hv).
    by apply response_validate_complete.
Qed.

(** X11: validation of a response returns exactly the instance that holds
    the count as given and one validated item per element of the list, in
    the order of the payload. The count is not compared with the number of
    items. *)
Theorem response_validate_exact (cls : ResponseModel) (payload : Bag) (r : Response) :
  response_validate cls payload = inr r <-> validated_from cls payload r.
Proof.
  split; [apply response_validate_sound|apply response_validate_complete].
Qed.

(** X12: keys of the payload other than the count and the list are not
    looked at: adding or overwriting one does not change the outcome. *)
Theorem response_ignores_extra_keys (cls : ResponseModel) (payload : Bag)
    (k : string) (v : value) :
  k <> count_field cls ->
  k <> list_field cls ->
  response_validate cls (dict_set k v payload) = response_validate cls payload.
Proof.
  intros Hc Hl. unfold response_validate, validate_count, validate_list.
  by rewrite !dict_get_set_ne.
Qed.

End Fetching.

(** ** Dumped arguments *)

Lemma dict_get_elem (k : string) (x : value) (m : Bag) :
  NoDup (keys m) -> (k, x) ∈ m -> dict_get k m = Some x.
Proof.
  induction m as [|[k0 v0] m IH]; intros Hnd Hin; [by apply elem_of_nil in Hin|].
  simpl in *. apply NoDup_cons in Hnd as [Hnotin Hnd].
  apply elem_of_cons in Hin as [[= -> ->]|Hin].
  - by rewrite String.eqb_refl.
  - destruct (String.eqb_spec k k0) as [->|Hne]; [|by apply IH].
    exfalso. apply Hnotin. by apply (list_elem_of_fmap_2 fst _ (k0, x)).
Qed.

Lemma keys_dump (k : string) (m : Model) :
  k ∉ keys m -> k ∉ keys (model_dump_exclude_none m).
Proof.
  unfold keys, model_dump_exclude_none. intros Hk Hin. apply Hk.
  apply list_elem_of_fmap in Hin as (kv & -> & Hkv).
  apply list_elem_of_filter in Hkv as [_ Hkv]. by apply list_elem_of_fmap_2.
Qed.

Lemma dict_get_dump_none (k : string) (m : Model) :
  NoDup (keys m) -> dict_get k m = Some VNone ->
  dict_get k (model_dump_exclude_none m) = None.
Proof.
  induction m as [|[k0 v0] m IH]; intros Hnd Hget; [done|].
  simpl in Hnd. apply NoDup_cons in Hnd as [Hnotin Hnd].
  unfold model_dump_exclude_none in *. rewrite filter_cons.
  simpl in Hget. destruct (String.eqb_spec k k0) as [->|Hne].
  - injection Hget as ->.
    destruct (decide _) as [Hd|Hd]; [by destruct Hd|].
    by apply dict_get_keys, keys_dump.
  - destruct (decide _) as [Hd|Hd]; [|by apply IH].
    simpl. destruct (String.eqb_spec k k0); [done|by apply IH].
Qed.

Lemma dump_no_none (m : Model) :
  Forall (fun kv => kv.2 <> VNone) (model_dump_exclude_none m).
Proof.
  apply Forall_forall. intros [k v] Hin. unfold model_dump_exclude_none in Hin.
  apply list_elem_of_filter in Hin as [Hv _]. simpl in *. by intros ->.
Qed.

Section Dumping.
Context {ext : Externals}.

Lemma keys_validated (fs : list FieldInfo) (d : Bag) (m : Model) :
  Forall2 (fun f kv => kv.1 = fname f /\ field_outcome d f kv.2) fs m ->
  keys m = map fname fs.
Proof.
  induction 1 as [|f kv fs m [Hk _] _ IH]; [done|].
  simpl. by rewrite Hk, IH.
Qed.

Lemma validate_fields_complete (fs : list FieldInfo) (m : Model) (B : Bag) :
  length fs = length m ->
  (forall f x, f ∈ fs -> (fname f, x) ∈ m -> field_outcome B f x) ->
  map fst m = map fname fs ->
  validate_fields fs B = ([], m).
Proof.
  revert m. induction fs as [|f fs IH]; intros [|[k x] m] Hlen Hout Hkeys; try done.
  simpl in *. injection Hkeys as -> Hkeys. injection Hlen as Hlen.
  rewrite (IH m Hlen); [|intros g y Hg Hy; apply Hout; by right|done].
  pose proof (Hout f x ltac:(by left) ltac:(by left)) as Hf.
  unfold field_outcome in Hf.
  destruct (dict_get (fname f) B) as [v|]; by rewrite Hf.
Qed.

Lemma check_bounds_same (ge le : option Z) (n n' : Z) :
  check_bounds ge le n = inr n' -> n' = n.
Proof. unfold check_bounds. repeat case_match; congruence. Qed.

(** A validated value validates to itself. *)
Lemma validate_field_idem (t : FieldType) (v x : value) :
  validate_field t v = inr x -> validate_field t x = inr x.
Proof.
  revert v x. induction t as [ge le| | |t IH]; intros v x; simpl.
  - destruct (int_validator v) as [e|n]; [done|].
    destruct (check_bounds ge le n) as [e|n'] eqn:Hb; [done|].
    intros [= <-]. simpl. apply check_bounds_same in Hb as Hn. subst n'.
    by rewrite Hb.
  - destruct (str_validator v) as [e|s]; [done|]. by intros [= <-].
  - destruct (bool_validator v) as [e|b]; [done|]. by intros [= <-].
  - destruct (is_none v).
    + by intros [= <-].
    + intros Hv. destruct (is_none x) eqn:Hx; [by destruct x|]. by eapply IH.
Qed.

Lemma validate_none_optional (t : FieldType) (v : value) :
  validate_field t v = inr VNone -> is_optional t = true.
Proof.
  destruct t; simpl; try done.
  - destruct (int_validator v); [done|]. by destruct (check_bounds _ _ _).
  - by destruct (str_validator v).
  - by destruct (bool_validator v).
Qed.

Lemma dump_round_trip_wf (cls : ParamsModel) (kwargs : Bag) (m : Model) :
  well_formed cls = true ->
  model_validate cls kwargs = inr m ->
  model_validate cls (model_dump_exclude_none m) = inr m.
Proof.
  intros [Hfit Hnd%bool_decide_eq_true_1]%andb_true_iff Hm.
  pose proof (validate_fields_ok _ _ _ (model_validate_inr _ _ _ Hm)) as Hall.
  pose proof (keys_validated _ _ _ Hall) as Hkeys.
  assert (Hndm : NoDup (keys m)) by by rewrite Hkeys.
  unfold model_validate.
  rewrite (validate_fields_complete (fields cls) m); [done| | |exact Hkeys].
  - by eapply Forall2_length.
  - intros f x Hf Hx.
    apply dict_get_elem in Hx; [|done].
    destruct (lookup_validated _ _ _ f Hall Hnd Hf) as (x' & Hx' & Hout).
    rewrite Hx in Hx'. injection Hx' as <-.
    rewrite forallb_forall in Hfit. specialize (Hfit f).
    rewrite <- list_elem_of_In in Hfit. specialize (Hfit Hf).
    unfold default_fits in Hfit.
    destruct (default f) as [d|] eqn:Hd; [|done].
    apply andb_true_iff in Hfit as [Hconf Hopt].
    unfold field_outcome in *.
    destruct (is_none x) eqn:Hnone;
      [destruct x; try done|assert (Hx0 : x <> VNone) by by intros ->].
    + rewrite (dict_get_dump_none _ _ Hndm Hx).
      destruct (dict_get (fname f) kwargs) as [v|]; [|congruence].
      apply validate_none_optional in Hout. rewrite Hout in Hopt.
      destruct d; try done.
    + rewrite (dict_get_dump _ _ _ Hx Hx0).
      destruct (dict_get (fname f) kwargs) as [v|].
      * by eapply validate_field_idem.
      * rewrite Hd in Hout. injection Hout as ->. by apply conforms_validate.
Qed.

Lemma params_models_well_formed :
  Forall (fun cls => well_formed cls = true) params_models.
Proof. repeat constructor. Qed.

(** X13: for each of the nine argument models, the query that is dumped
    from validated arguments determines them: validating the dump gives the
    same arguments back. *)
Theorem dump_round_trip (cls : ParamsModel) (kwargs : Bag) (m : Model) :
  cls ∈ params_models ->
  model_validate cls kwargs = inr m ->
  model_validate cls (model_dump_exclude_none m) = inr m.
Proof.
  intros Hcls. apply dump_round_trip_wf.
  pose proof params_models_well_formed as Hwf.
  rewrite Forall_forall in Hwf. by apply Hwf.
Qed.

Lemma validated_offset (kwargs : Bag) (x : value) :
  field_outcome kwargs (int_field "offset" 0 (Some 0) None) x ->
  exists k, x = VInt k /\ 0 <= k.
Proof.
  unfold field_outcome. simpl.
  destruct (dict_get "offset" kwargs) as [v|].
  - destruct (int_validator v) as [e|n]; [done|].
    unfold check_bounds. destruct (n <? 0) eqn:Hlo; [done|].
    intros [= <-]. exists n. split; [done|lia].
  - intros [= <-]. exists 0. split; [done|lia].
Qed.

Lemma route_fields (rt : SbbRoute) :
  rt ∈ sbb_routes ->
  int_field "limit" 10 (Some 1) (Some 100) ∈ fields (ep_params (route_ep rt)) /\
  int_field "offset" 0 (Some 0) None ∈ fields (ep_params (route_ep rt)) /\
  NoDup (field_names (ep_params (route_ep rt))).
Proof.
  intros Hin. unfold sbb_routes in Hin.
  repeat (apply elem_of_cons in Hin as [->|Hin]);
    try (by apply elem_of_nil in Hin);
    (split; [in_list|split; [in_list|apply (bool_decide_unpack _); by vm_compute]]).
Qed.

(** X14: for every tool of ch_sbb and validated arguments, the fetch
    function, and the handler that calls it, issue exactly one request, to
    the URL of the route; the query of that request holds no None, a limit
    between 1 and 100 and an offset that is not negative. *)
Theorem query_well_formed (rt : SbbRoute) (kwargs : Bag) (p : Model) (w : World) :
  rt ∈ sbb_routes ->
  model_validate (ep_params (route_ep rt)) kwargs = inr p ->
  exists req,
    requests (ep_fetch (route_ep rt) p w).1 = requests w ++ [req] /\
    (forall arguments,
       ep_operand (route_ep rt) arguments = VDict kwargs ->
       requests (ep_handler (route_ep rt) arguments w).1 = requests w ++ [req]) /\
    url req = route_url rt /\
    Forall (fun kv => kv.2 <> VNone) (params req) /\
    (exists n, dict_get "limit" (params req) = Some (VInt n) /\ 1 <= n <= 100) /\
    (exists k, dict_get "offset" (params req) = Some (VInt k) /\ 0 <= k).
Proof.
  intros Hin Hv. destruct (route_fields rt Hin) as (Hlim & Hoff & Hnd).
  pose proof (sbb_fetch_effect_aux rt p w Hin) as Hw.
  exists (route_request rt p). split; [by rewrite Hw|]. split.
  { intros arguments Hop.
    rewrite (handler_spec _ _ _ (route_ep_in _ Hin)).
    rewrite (try_body_fetch _ _ _ _ _ Hop Hv).
    destruct (ep_fetch (route_ep rt) p w) as [w1 [e|r]]; simpl in *; by subst w1. }
  split; [done|]. simpl. split; [apply dump_no_none|]. split.
  - destruct (model_validate_field _ _ _ _ Hv Hnd Hlim) as (x & Hx & Hout).
    destruct (validated_limit _ _ Hout) as (n & -> & Hn).
    exists n. split; [by apply dict_get_dump|done].
  - destruct (model_validate_field _ _ _ _ Hv Hnd Hoff) as (x & Hx & Hout).
    destruct (validated_offset _ _ Hout) as (k & -> & Hk).
    exists k. split; [by apply dict_get_dump|done].
Qed.

(** ** What one invocation does to the world *)

Lemma try_body_cases (ep : Endpoint) (arguments : option Bag) (w : World) :
  (exists e, try_body ep arguments w = (w, inl e)) \/
  (exists p, try_body ep arguments w = ep_fetch ep p w).
Proof.
  unfold try_body, mbind, M_bind, construct, lift.
  destruct (ep_operand ep arguments); simpl; try (left; by eexists).
  destruct (model_validate (ep_params ep) d) as [e|p]; [left|right]; by eexists.
Qed.

Lemma screener_fetch_world (p : Model) (w : World) :
  (fetch_screener_data p w).1 =
  record_screener_query (Some "day_gainers") (set_screener_body "day_gainers" w).
Proof.
  unfold fetch_screener_data, mbind, M_bind, construct, lift, screener_response.
  simpl. destruct (screener_reply w (Some "day_gainers")) as [e|v]; [done|].
  by destruct v.
Qed.

(** X15: one invocation of a handler writes the log only when it fails,
    and then exactly one record carrying the exception it raises; and it
    calls upstream at most once (one request or one screener query). *)
Theorem handler_effects (ep : Endpoint) (arguments : option Bag) (w : World) :
  ep ∈ endpoints ->
  log (ep_handler ep arguments w).1 =
    log w ++ match (ep_handler ep arguments w).2 with
             | inl e => [LogError (ep_prefix ep) e]
             | inr _ => []
             end /\
  exists reqs qs,
    requests (ep_handler ep arguments w).1 = requests w ++ reqs /\
    screener_queries (ep_handler ep arguments w).1 = screener_queries w ++ qs /\
    (length reqs + length qs <= 1)%nat.
Proof.
  intros Hin. rewrite (handler_spec _ _ _ Hin).
  destruct (try_body_cases ep arguments w) as [[e Hb]|[p Hb]]; rewrite Hb.
  - simpl. split; [done|]. exists [], []. rewrite !app_nil_r. simpl. auto.
  - assert (Hw : (exists req, (ep_fetch ep p w).1 = record_request req w) \/
                 (ep_fetch ep p w).1 =
                   record_screener_query (Some "day_gainers")
                     (set_screener_body "day_gainers" w)).
    { destruct (endpoints_split ep Hin) as [(rt & Hrt & ->)| ->].
      - left. exists (route_request rt p). exact (sbb_fetch_effect_aux rt p w Hrt).
      - right. apply screener_fetch_world. }
    destruct (ep_fetch ep p w) as [w1 [e|r]]; simpl in *;
      destruct Hw as [[req ->]| ->]; simpl;
      (split; [by rewrite ?app_nil_r|]);
      first [ exists [req], [] | exists [], [Some "day_gainers"] ];
      rewrite ?app_nil_r; simpl; auto.
Qed.


(** ** Registration, once more *)

(** X17: the tools a module advertises and the handlers it stores agree:
    under the name of each tool the table holds the handler of the same
    endpoint, and the advertised input schema is the model that handler
    validates its arguments with. *)
Theorem advertised_schema_is_enforced :
  Forall2
    (fun t ep => TOOLS_HANDLERS ch_sbb !! name t = Some (ep_handler ep) /\
                 inputSchema t = ep_params ep)
    (TOOLS ch_sbb) (map route_ep sbb_routes) /\
  Forall2
    (fun t ep => TOOLS_HANDLERS glob_screeners !! name t = Some (ep_handler ep) /\
                 inputSchema t = ep_params ep)
    (TOOLS glob_screeners) [ep_screenerdata].
Proof.
  split; repeat constructor.
Qed.

End Dumping.

(** X18: from a registry that satisfies the invariant, appending a tool and
    storing its handler under the tool's name keeps the invariant exactly
    when the name is not registered yet; nothing in the two statements
    checks for a duplicate. *)
Theorem registration_keeps_invariant_iff_fresh (t : Tool) (h : Handler) (r : Registry) :
  registry_inv r ->
  registry_inv (TOOLS_HANDLERS_set (name t) h (TOOLS_append t r)) <->
  name t ∉ tool_names r.
Proof.
  intros Hinv. split.
  - intros [Hnd _] Hin. unfold tool_names in *. simpl in Hnd.
    rewrite fmap_app in Hnd. apply NoDup_app in Hnd as (_ & Hdisj & _).
    apply (Hdisj _ Hin). simpl. by left.
  - by apply registry_inv_step.
Qed.

Section Bounds.
Context {ext : Externals}.

Lemma check_bounds_out (ge le : option Z) (n : Z) :
  (exists t, check_bounds ge le n = inl t) <-> out_of_bounds ge le n.
Proof.
  unfold check_bounds, out_of_bounds. split.
  - intros [t Ht]. destruct le as [hi|], ge as [lo|];
      repeat case_match; try done;
      first [ left; eexists; split; [done|lia] | right; eexists; split; [done|lia] ].
  - intros [(lo & -> & Hlo)|(hi & -> & Hhi)].
    + destruct le as [hi|]; repeat case_match; try by eexists. all: lia.
    + repeat case_match; try by eexists. all: lia.
Qed.

(** X19: an integer field with bounds is reported in the ValidationError
    exactly when the integer given lies outside the bounds; both bounds are
    inclusive, and a bound that is not declared does not constrain. *)
Theorem int_field_rejected_iff_out_of_bounds (cls : ParamsModel) (kwargs : Bag)
    (f : FieldInfo) (ge le : option Z) (v : value) (n : Z) :
  f ∈ fields cls ->
  NoDup (field_names cls) ->
  annotation f = TInt ge le ->
  dict_get (fname f) kwargs = Some v ->
  int_validator v = inr n ->
  (exists errs t,
     model_validate cls kwargs = inl (ValidationError (title cls) errs) /\
     at_field (fname f) t ∈ errs) <->
  out_of_bounds ge le n.
Proof.
  intros Hf Hnd Hann Hget Hint.
  assert (Hvf : forall t, validate_field (annotation f) v = inl t <->
                          check_bounds ge le n = inl t).
  { intros t. rewrite Hann. simpl. rewrite Hint.
    destruct (check_bounds ge le n); split; congruence. }
  split.
  - intros (errs & t & Hm & Hin). apply check_bounds_out.
    pose proof (model_validate_cases cls kwargs) as Hc. rewrite Hm in Hc.
    destruct Hc as [[= ->] _].
    apply validate_fields_errors in Hin as (g & Hg & Herr).
    destruct Herr as [(v' & t' & Hget' & Hv' & Heq)|(Hget' & _ & Heq)];
      injection Heq as Hname _;
      rewrite (fname_inj _ f g Hnd Hf Hg Hname) in *.
    + rewrite Hget in Hget'. injection Hget' as <-.
      exists t'. by apply Hvf.
    + congruence.
  - intros [t Ht]%check_bounds_out. apply Hvf in Ht.
    pose proof (field_error_collected _ _ _ _ _ Hf Hget Ht) as Hin.
    exists (validate_fields (fields cls) kwargs).1, t.
    split; [by eapply model_validate_errors|done].
Qed.

End Bounds.

(** * The statements on concrete inputs *)

#[local] Existing Instance sample_externals.

Lemma not_classified_503 : ~ classified (HTTPStatusError 503).
Proof.
  unfold classified, classified_kinds. simpl. intros Hin.
  repeat (apply elem_of_cons in Hin as [Heq|Hin]; [discriminate|]).
  by apply elem_of_nil in Hin.
Qed.

(** C1 fails as stated: with an upstream that answers 503, the
    rail-traffic-info handler logs the HTTPStatusError and raises it as it
    is; no classified kind is produced. *)
Lemma status_503_is_reraised_unclassified :
  (@handle_rail_traffic_info sample_externals (Some []) world_503).2 =
    inl (HTTPStatusError 503) /\
  log (@handle_rail_traffic_info sample_externals (Some []) world_503).1 =
    [LogError "Error fetching rail traffic info: " (HTTPStatusError 503)] /\
  ~ classified (HTTPStatusError 503).
Proof.
  split; [reflexivity|]. split; [reflexivity|]. apply not_classified_503.
Qed.

Lemma failure_logged_and_reraised_witness :
  ep_rail_traffic_info ∈ endpoints /\
  (@try_body sample_externals ep_rail_traffic_info (Some []) world_503).2 =
    inl (HTTPStatusError 503) /\
  @ep_handler sample_externals ep_rail_traffic_info (Some []) world_503 =
    (append_log
       (LogError (@ep_prefix sample_externals ep_rail_traffic_info)
          (HTTPStatusError 503))
       (@try_body sample_externals ep_rail_traffic_info (Some []) world_503).1,
     inl (HTTPStatusError 503)).
Proof.
  split; [in_list|]. split; [reflexivity|].
  apply (@failure_logged_and_reraised sample_externals);
    [in_list|reflexivity].
Defined.

Lemma limit_out_of_range_rejected_witness :
  dict_get "limit" [("limit", VInt 500)] = Some (VInt 500) /\
  @int_validator sample_externals (VInt 500) = inr 500 /\
  (500 < 1 \/ 100 < 500) /\
  exists errs,
    @model_validate sample_externals TrafficInfoParams [("limit", VInt 500)] =
      inl (ValidationError "TrafficInfoParams" errs) /\
    at_field "limit"
      (if 100 <? 500 then less_than_equal 100 else greater_than_equal 1) ∈ errs /\
    (@handle_rail_traffic_info sample_externals
       (Some [("limit", VInt 500)]) world_two_results).2 =
      inl (ValidationError "TrafficInfoParams" errs) /\
    requests (@handle_rail_traffic_info sample_externals
                (Some [("limit", VInt 500)]) world_two_results).1 =
      requests world_two_results.
Proof.
  split; [reflexivity|]. split; [reflexivity|]. split; [right; lia|].
  apply (@limit_out_of_range_rejected sample_externals _ (VInt 500) 500);
    [reflexivity|reflexivity|right; lia].
Defined.

Lemma success_is_one_text_block_witness :
  ep_rail_traffic_info ∈ endpoints /\
  @ep_operand sample_externals ep_rail_traffic_info (Some [("limit", VInt 5)]) =
    VDict [("limit", VInt 5)] /\
  @ep_handler sample_externals ep_rail_traffic_info
    (Some [("limit", VInt 5)]) world_two_results =
    (record_request
       (rail_traffic_request
          (dict_set "limit" (VInt 5) (default_model TrafficInfoParams)))
       world_two_results,
     inr [TextContent "total_count=2 results=[Item(), Item()]"]).
Proof.
  split; [in_list|]. split; [reflexivity|].
  apply (@success_is_one_text_block sample_externals ep_rail_traffic_info
           (Some [("limit", VInt 5)]) [("limit", VInt 5)]
           (dict_set "limit" (VInt 5) (default_model TrafficInfoParams))
           (@Build_Response sample_externals TrafficInfoResponse 2
              [VDict []; VDict []]));
    [in_list|reflexivity|reflexivity|reflexivity].
Defined.

Lemma traffic_info_defaults_applied_witness :
  @respects TrafficInfoParams [("limit", VInt 5)] = true /\
  exists m,
    @model_validate sample_externals TrafficInfoParams [("limit", VInt 5)] = inr m /\
    dict_get "limit" m = Some (VInt 5) /\
    dict_get "offset" m = Some (VInt 0) /\
    dict_get "timezone" m = Some (VStr "UTC") /\
    dict_get "lang" m = Some VNone.
Proof.
  split; [reflexivity|].
  destruct (@traffic_info_defaults_applied sample_externals [("limit", VInt 5)] eq_refl)
    as (m & Hm & _ & Hoffset & Htz & _ & _ & Hopt & Hgiven).
  exists m. split; [exact Hm|]. split; [|split; [|split]].
  - apply Hgiven; [in_list|reflexivity].
  - apply Hoffset. reflexivity.
  - apply Htz. reflexivity.
  - apply Hopt; [in_list|reflexivity].
Defined.


(** C7 fails as stated: for a 200 reply whose payload is the empty object,
    the fetch raises pydantic's ValidationError, not a classified
    UpstreamMalformedResponse. *)
Lemma empty_object_raises_validation_error :
  (@fetch_rail_traffic_info sample_externals (default_model TrafficInfoParams)
     world_empty_object).2 =
    inl (ValidationError "TrafficInfoResponse"
           [at_field "total_count" missing; at_field "results" missing]) /\
  exn_class (ValidationError "TrafficInfoResponse"
               [at_field "total_count" missing; at_field "results" missing])
    <> "UpstreamMalformedResponse".
Proof. split; [reflexivity|discriminate]. Qed.

Lemma malformed_payload_raises_witness :
  httpx_reply world_empty_object
    (rail_traffic_request (default_model TrafficInfoParams)) =
    inr {| status_code := 200; json_body := Some (VDict []) |} /\
  is_success {| status_code := 200; json_body := Some (VDict []) |} = true /\
  ~ @fits_value sample_externals TrafficInfoResponse (VDict []) /\
  exists e,
    (@fetch_rail_traffic_info sample_externals (default_model TrafficInfoParams)
       world_empty_object).2 = inl e /\
    exists errs, e = ValidationError "TrafficInfoResponse" errs /\
      (dict_get "total_count" [] = None -> at_field "total_count" missing ∈ errs) /\
      (dict_get "results" [] = None -> at_field "results" missing ∈ errs).
Proof.
  assert (Hfit : ~ @fits_value sample_externals TrafficInfoResponse (VDict [])).
  { intros (payload & Heq & (v & n & Hget & _) & _).
    injection Heq as <-. discriminate Hget. }
  split; [reflexivity|]. split; [reflexivity|]. split; [exact Hfit|].
  exact (@malformed_payload_raises sample_externals
           (default_model TrafficInfoParams) world_empty_object
           {| status_code := 200; json_body := Some (VDict []) |} (VDict [])
           eq_refl eq_refl eq_refl Hfit).
Defined.

Lemma fixed_limit_in_url_witness :
  ep_station_users ∈
    [ep_station_users; ep_target_actual_compared; ep_station_furnitures;
     ep_station_services; ep_stores_data] /\
  @model_validate sample_externals StationUsersParams [("limit", VInt 5)] =
    inr (dict_set "limit" (VInt 5) (default_model StationUsersParams)) /\
  exists path n,
    requests (@fetch_usage_data sample_externals
                (dict_set "limit" (VInt 5) (default_model StationUsersParams))
                world_two_results).1 =
      [ {| url := BASE_URL +:+ path +:+ "?limit=100";
           params := model_dump_exclude_none
                       (dict_set "limit" (VInt 5) (default_model StationUsersParams)) |} ] /\
    dict_get "limit" (dict_set "limit" (VInt 5) (default_model StationUsersParams)) =
      Some (VInt n) /\
    1 <= n <= 100 /\
    dict_get "limit"
      (model_dump_exclude_none
         (dict_set "limit" (VInt 5) (default_model StationUsersParams))) =
      Some (VInt n).
Proof.
  split; [in_list|]. split; [reflexivity|].
  exact (@fixed_limit_in_url sample_externals ep_station_users
           [("limit", VInt 5)]
           (dict_set "limit" (VInt 5) (default_model StationUsersParams))
           world_two_results ltac:(in_list) eq_refl).
Defined.

(** ** The further properties on concrete inputs *)

Lemma traffic_info_names_NoDup : NoDup (field_names TrafficInfoParams).
Proof. apply (bool_decide_unpack _). by vm_compute. Qed.

Lemma validation_errors_exact_witness :
  model_validate TrafficInfoParams [("limit", VInt 500)] =
    inl (ValidationError "TrafficInfoParams"
           [at_field "limit" (less_than_equal 100)]) /\
  exists errs,
    ValidationError "TrafficInfoParams" [at_field "limit" (less_than_equal 100)] =
      ValidationError (title TrafficInfoParams) errs /\
    errs <> [] /\
    forall e, e ∈ errs <->
      exists f, f ∈ fields TrafficInfoParams /\
                field_error [("limit", VInt 500)] f e.
Proof.
  split; [reflexivity|].
  apply (validation_errors_exact TrafficInfoParams [("limit", VInt 500)]).
  reflexivity.
Defined.

Lemma explicit_none_is_omission_witness :
  opt_str "lang" ∈ fields TrafficInfoParams /\
  is_optional (annotation (opt_str "lang")) = true /\
  default (opt_str "lang") = Some VNone /\
  model_validate TrafficInfoParams
    (dict_set "lang" VNone [("limit", VInt 5); ("lang", VStr "de")]) =
  model_validate TrafficInfoParams
    (dict_del "lang" [("limit", VInt 5); ("lang", VStr "de")]).
Proof.
  split; [in_list|]. split; [reflexivity|]. split; [reflexivity|].
  apply (explicit_none_is_omission TrafficInfoParams
           [("limit", VInt 5); ("lang", VStr "de")] (opt_str "lang"));
    [in_list|apply traffic_info_names_NoDup|reflexivity|reflexivity].
Defined.

Lemma explicit_none_rejected_witness :
  int_field "limit" 10 (Some 1) (Some 100) ∈ fields TrafficInfoParams /\
  is_optional (TInt (Some 1) (Some 100)) = false /\
  dict_get "limit" [("limit", VNone)] = Some VNone /\
  exists errs t,
    model_validate TrafficInfoParams [("limit", VNone)] =
      inl (ValidationError "TrafficInfoParams" errs) /\
    at_field "limit" t ∈ errs /\
    t ∈ [int_type; string_type; bool_type].
Proof.
  split; [in_list|]. split; [reflexivity|]. split; [reflexivity|].
  apply (explicit_none_rejected TrafficInfoParams [("limit", VNone)]
           (int_field "limit" 10 (Some 1) (Some 100)));
    [in_list|reflexivity|reflexivity].
Defined.

Lemma invalid_arguments_no_fetch_witness :
  ep_screenerdata ∈ endpoints /\
  model_validate FincanceScreenerParams [("screenerOptions", VInt 3)] =
    inl (ValidationError "FincanceScreenerParams"
           [at_field "screenerOptions" string_type]) /\
  handle_screenerdata (Some [("screenerOptions", VInt 3)]) world_two_results =
    (append_log
       (LogError "Error handling endpoint: "
          (ValidationError "FincanceScreenerParams"
             [at_field "screenerOptions" string_type]))
       world_two_results,
     inl (ValidationError "FincanceScreenerParams"
            [at_field "screenerOptions" string_type])).
Proof.
  split; [in_list|]. split; [reflexivity|].
  apply (invalid_arguments_no_fetch ep_screenerdata
           [("screenerOptions", VInt 3)]); [in_list|reflexivity].
Defined.

Lemma handler_reads_declared_fields_only_witness :
  ep_rail_traffic_info ∈ endpoints /\
  handle_rail_traffic_info
    (Some [("limit", VInt 5); ("colour", VStr "red")]) world_two_results =
  handle_rail_traffic_info
    (Some [("colour", VStr "blue"); ("limit", VInt 5)]) world_two_results.
Proof.
  split; [in_list|].
  apply (handler_reads_declared_fields_only ep_rail_traffic_info
           [("limit", VInt 5); ("colour", VStr "red")]
           [("colour", VStr "blue"); ("limit", VInt 5)]); [in_list|].
  intros k Hk. simpl in Hk.
  repeat (apply elem_of_cons in Hk as [->|Hk]); try reflexivity.
  by apply elem_of_nil in Hk.
Defined.

Lemma sbb_fetch_effect_witness :
  rail_traffic_route ∈ sbb_routes /\
  (fetch_rail_traffic_info (default_model TrafficInfoParams) world_503).1 =
    record_request
      (route_request rail_traffic_route (default_model TrafficInfoParams))
      world_503.
Proof.
  split; [in_list|].
  apply (sbb_fetch_effect rail_traffic_route). in_list.
Defined.

Lemma non_success_status_is_raised_witness :
  rail_traffic_route ∈ sbb_routes /\
  (503 < 200 \/ 299 < 503) /\
  handle_rail_traffic_info (Some []) world_503 =
    (append_log
       (LogError "Error fetching rail traffic info: " (HTTPStatusError 503))
       (record_request
          (route_request rail_traffic_route (default_model TrafficInfoParams))
          world_503),
     inl (HTTPStatusError 503)).
Proof.
  split; [in_list|]. split; [right; lia|].
  apply (non_success_status_is_raised rail_traffic_route (Some []) []
           (default_model TrafficInfoParams) world_503
           {| status_code := 503; json_body := None |});
    [in_list|reflexivity|reflexivity|reflexivity|right; simpl; lia].
Defined.

Lemma transport_failure_is_raised_witness :
  rail_traffic_route ∈ sbb_routes /\
  handle_rail_traffic_info (Some [])
    (world_of (inl (RequestError "connection refused"))) =
    (append_log
       (LogError "Error fetching rail traffic info: "
          (RequestError "connection refused"))
       (record_request
          (route_request rail_traffic_route (default_model TrafficInfoParams))
          (world_of (inl (RequestError "connection refused")))),
     inl (RequestError "connection refused")).
Proof.
  split; [in_list|].
  apply (transport_failure_is_raised rail_traffic_route (Some []) []
           (default_model TrafficInfoParams));
    [in_list|reflexivity|reflexivity|reflexivity].
Defined.

Lemma sbb_fetch_succeeds_iff_witness :
  rail_traffic_route ∈ sbb_routes /\
  ((fetch_rail_traffic_info (default_model TrafficInfoParams)
      world_two_results).2 =
     inr (@Build_Response sample_externals TrafficInfoResponse 2
            [VDict []; VDict []]) <->
   exists resp payload,
     httpx_reply world_two_results
       (route_request rail_traffic_route (default_model TrafficInfoParams)) =
       inr resp /\
     is_success resp = true /\
     json_body resp = Some (VDict payload) /\
     validated_from TrafficInfoResponse payload
       (@Build_Response sample_externals TrafficInfoResponse 2
          [VDict []; VDict []])).
Proof.
  split; [in_list|].
  apply (sbb_fetch_succeeds_iff rail_traffic_route). in_list.
Defined.

Lemma response_ignores_extra_keys_witness :
  "title" <> count_field FincanceScreenerResponse /\
  "title" <> list_field FincanceScreenerResponse /\
  response_validate FincanceScreenerResponse
    (dict_set "title" (VStr "Day Gainers")
       [("count", VInt 0); ("quotes", VList [])]) =
  response_validate FincanceScreenerResponse
    [("count", VInt 0); ("quotes", VList [])].
Proof.
  split; [discriminate|]. split; [discriminate|].
  apply (response_ignores_extra_keys FincanceScreenerResponse); discriminate.
Defined.

Lemma dump_round_trip_witness :
  TrafficInfoParams ∈ params_models /\
  model_validate TrafficInfoParams [("limit", VInt 5)] =
    inr (dict_set "limit" (VInt 5) (default_model TrafficInfoParams)) /\
  model_validate TrafficInfoParams
    (model_dump_exclude_none
       (dict_set "limit" (VInt 5) (default_model TrafficInfoParams))) =
    inr (dict_set "limit" (VInt 5) (default_model TrafficInfoParams)).
Proof.
  split; [in_list|]. split; [reflexivity|].
  apply (dump_round_trip TrafficInfoParams [("limit", VInt 5)]);
    [in_list|reflexivity].
Defined.

Lemma query_well_formed_witness :
  rail_traffic_route ∈ sbb_routes /\
  model_validate TrafficInfoParams [("limit", VInt 5)] =
    inr (dict_set "limit" (VInt 5) (default_model TrafficInfoParams)) /\
  exists req,
    requests (fetch_rail_traffic_info
                (dict_set "limit" (VInt 5) (default_model TrafficInfoParams))
                world_two_results).1 =
      requests world_two_results ++ [req] /\
    requests (handle_rail_traffic_info (Some [("limit", VInt 5)])
                world_two_results).1 =
      requests world_two_results ++ [req] /\
    url req = BASE_URL +:+ "/catalog/datasets/rail-traffic-information/records" /\
    Forall (fun kv => kv.2 <> VNone) (params req) /\
    (exists n, dict_get "limit" (params req) = Some (VInt n) /\ 1 <= n <= 100) /\
    (exists k, dict_get "offset" (params req) = Some (VInt k) /\ 0 <= k).
Proof.
  split; [in_list|]. split; [reflexivity|].
  destruct (query_well_formed rail_traffic_route [("limit", VInt 5)]
              (dict_set "limit" (VInt 5) (default_model TrafficInfoParams))
              world_two_results ltac:(in_list) eq_refl)
    as (req & Hfetch & Hhandler & Hurl & Hrest).
  exists req. split; [exact Hfetch|]. split; [|split; [exact Hurl|exact Hrest]].
  exact (Hhandler (Some [("limit", VInt 5)]) eq_refl).
Defined.

Lemma handler_effects_witness :
  ep_rail_traffic_info ∈ endpoints /\
  log (handle_rail_traffic_info (Some []) world_503).1 =
    log world_503 ++
    match (handle_rail_traffic_info (Some []) world_503).2 with
    | inl e => [LogError "Error fetching rail traffic info: " e]
    | inr _ => []
    end.
Proof.
  split; [in_list|].
  exact (proj1 (handler_effects ep_rail_traffic_info (Some []) world_503
                  ltac:(in_list))).
Defined.


Lemma registration_keeps_invariant_iff_fresh_witness :
  registry_inv empty_registry /\
  (registry_inv
     (TOOLS_HANDLERS_set "stock-screendata" handle_screenerdata
        (TOOLS_append
           {| name := "stock-screendata";
              description := "Description of what this endpoint does";
              inputSchema := FincanceScreenerParams |} empty_registry)) <->
   "stock-screendata" ∉ tool_names empty_registry).
Proof.
  split; [apply registry_inv_empty|].
  apply (registration_keeps_invariant_iff_fresh
           {| name := "stock-screendata";
              description := "Description of what this endpoint does";
              inputSchema := FincanceScreenerParams |}).
  apply registry_inv_empty.
Defined.

Lemma int_field_rejected_iff_out_of_bounds_witness :
  int_field "offset" 0 (Some 0) None ∈ fields RailwayLineParams /\
  dict_get "offset" [("offset", VInt (-1))] = Some (VInt (-1)) /\
  int_validator (VInt (-1)) = inr (-1) /\
  ((exists errs t,
      model_validate RailwayLineParams [("offset", VInt (-1))] =
        inl (ValidationError "RailwayLineParams" errs) /\
      at_field "offset" t ∈ errs) <->
   out_of_bounds (Some 0) None (-1)).
Proof.
  split; [in_list|]. split; [reflexivity|]. split; [reflexivity|].
  apply (int_field_rejected_iff_out_of_bounds RailwayLineParams
           [("offset", VInt (-1))] (int_field "offset" 0 (Some 0) None)
           (Some 0) None (VInt (-1)) (-1));
    [in_list| |reflexivity|reflexivity|reflexivity].
  apply (bool_decide_unpack _). by vm_compute.
Defined.
